(** * Standards registry: loader, normalizer, cache and query layer

    A shallow embedding of [StandardsRegistry] (standards_registry.py) and
    of the presentation function that guards the search box, with the
    properties of the data-loading and query layer stated and proved.

    Conventions of the embedding.
    - Python values are the documents [json.load] and [yaml.safe_load]
      produce: null, booleans, integers, strings, lists and mappings.
      Floating-point numbers, dates and binary scalars are outside the model.
    - Text is a sequence of code points below 256 (the Latin-1 range), one
      [ascii] per code point; [str.lower] and [repr] are modelled exactly on
      that range.
    - A Python [dict] is an association list in insertion order whose keys
      are hashable values compared with Python's key equality
      ([True == 1], [False == 0]).
    - A Python exception is the [Raise] case of [result]; methods of the
      registry thread the registry object explicitly, so a state change that
      precedes an exception is kept.
    - The file system and the two parsers are the [World] the registry runs
      in; paths follow [pathlib.PurePosixPath] as of Python 3.11. *)

From Stdlib Require Import ZArith List String Ascii Bool Arith Lia.
From Stdlib Require Import DecimalString.
Import ListNotations.
Open Scope list_scope.
Open Scope string_scope.
Open Scope nat_scope.

Set Warnings "-register-all".

(* ===================================================================== *)
(** * Exceptions and the error monad *)
(* ===================================================================== *)

Inductive exn : Type :=
| TypeError
| KeyError
| AttributeError
| IndexError
| FileNotFoundError
| IsADirectoryError
| YAMLError
| JSONDecodeError
| UnicodeDecodeError.

Inductive result (A : Type) : Type :=
| Ok (a : A)
| Raise (e : exn).

Arguments Ok {A} a.
Arguments Raise {A} e.

Definition rbind {A B : Type} (r : result A) (k : A -> result B) : result B :=
  match r with
  | Ok a => k a
  | Raise e => Raise e
  end.

Declare Scope result_scope.
Delimit Scope result_scope with result.
Notation "x <- r ;; k" := (rbind r (fun x => k))
  (at level 61, r at next level, right associativity) : result_scope.

(** A comprehension [[f(x) for x in xs]]: elements are evaluated left to
    right and the first exception ends the loop. *)
Fixpoint mapM {A B : Type} (f : A -> result B) (xs : list A) : result (list B) :=
  match xs with
  | [] => Ok []
  | x :: xs' =>
      (y <- f x ;;
       ys <- mapM f xs' ;;
       Ok (y :: ys))%result
  end.

(* ===================================================================== *)
(** * Python strings *)
(* ===================================================================== *)

Module PyStr.

(** [str.lower] on one code point below 256: the letters A-Z and the
    Latin-1 capitals U+00C0..U+00DE other than the multiplication sign
    U+00D7 move up by 32. *)
Definition lower_char (c : ascii) : ascii :=
  let n := nat_of_ascii c in
  if ((65 <=? n) && (n <=? 90)) || ((192 <=? n) && (n <=? 222) && negb (n =? 215))
  then ascii_of_nat (n + 32)
  else c.

Fixpoint lower (s : string) : string :=
  match s with
  | EmptyString => EmptyString
  | String c s' => String (lower_char c) (lower s')
  end.

Definition is_ascii_char (c : ascii) : bool := nat_of_ascii c <? 128.

Fixpoint is_ascii (s : string) : bool :=
  match s with
  | EmptyString => true
  | String c s' => is_ascii_char c && is_ascii s'
  end.

(** [str.upper] on one code point below 256.  The result is a string
    because U+00DF upper-cases to two letters; it is [None] for the two
    code points whose upper case lies above 255 (U+00B5 and U+00FF). *)
Definition upper_char (c : ascii) : option string :=
  let n := nat_of_ascii c in
  if ((97 <=? n) && (n <=? 122)) || ((224 <=? n) && (n <=? 254) && negb (n =? 247))
  then Some (String (ascii_of_nat (n - 32)) EmptyString)
  else if n =? 223 then Some "SS"
  else if (n =? 181) || (n =? 255) then None
  else Some (String c EmptyString).


(** [s.startswith(p)]. *)
Fixpoint starts_with (p s : string) : bool :=
  match p with
  | EmptyString => true
  | String a p' =>
      match s with
      | EmptyString => false
      | String b s' => Ascii.eqb a b && starts_with p' s'
      end
  end.

(** [needle in hay] for two strings. *)
Fixpoint contains (needle hay : string) : bool :=
  starts_with needle hay ||
  match hay with
  | EmptyString => false
  | String _ hay' => contains needle hay'
  end.

(** [sep.join(parts)]. *)
Fixpoint join (sep : string) (parts : list string) : string :=
  match parts with
  | [] => EmptyString
  | [p] => p
  | p :: ps => p ++ sep ++ join sep ps
  end.

(** [s.split(sep)] for a one-character separator: the current piece is
    accumulated in [cur]; the result is never empty. *)
Fixpoint split_on (sep : ascii) (cur : string) (s : string) : list string :=
  match s with
  | EmptyString => [cur]
  | String c s' =>
      if Ascii.eqb c sep then cur :: split_on sep EmptyString s'
      else split_on sep (cur ++ String c EmptyString) s'
  end.

Definition split (sep : ascii) (s : string) : list string :=
  split_on sep EmptyString s.

(** [s.replace(old, new)] for a non-empty [old]: occurrences are replaced
    from the left and do not overlap; [skip] counts the characters of a
    replaced occurrence still to be passed over. *)
Fixpoint replace_from (old new : string) (skip : nat) (s : string) : string :=
  match s with
  | EmptyString => EmptyString
  | String c s' =>
      match skip with
      | S k => replace_from old new k s'
      | O =>
          if starts_with old s
          then new ++ replace_from old new (String.length old - 1) s'
          else String c (replace_from old new 0 s')
      end
  end.

Definition replace (old new s : string) : string := replace_from old new 0 s.

(** The one-character strings of [s], the items produced by iterating it. *)
Fixpoint chars (s : string) : list string :=
  match s with
  | EmptyString => []
  | String c s' => String c EmptyString :: chars s'
  end.

(** [s.rfind(".")] as an index, [None] for Python's -1. *)
Fixpoint rfind_dot (s : string) : option nat :=
  match s with
  | EmptyString => None
  | String c s' =>
      match rfind_dot s' with
      | Some i => Some (S i)
      | None => if Ascii.eqb c "."%char then Some 0 else None
      end
  end.

(** [s[i:]]. *)
Fixpoint drop (i : nat) (s : string) : string :=
  match i, s with
  | O, _ => s
  | S i', EmptyString => EmptyString
  | S i', String _ s' => drop i' s'
  end.

(** [str(n)] for an integer. *)
Definition of_Z (z : Z) : string := NilZero.string_of_int (Z.to_int z).

Definition hex_digit (n : nat) : ascii :=
  if n <? 10 then ascii_of_nat (48 + n) else ascii_of_nat (87 + n).

(** Code points [repr] writes as an escape: the C0 controls, DEL, the C1
    controls, the no-break space and the soft hyphen. *)
Definition printable (c : ascii) : bool :=
  let n := nat_of_ascii c in
  negb ((n <? 32) || ((127 <=? n) && (n <=? 160)) || (n =? 173)).

Definition repr_char (quote : ascii) (c : ascii) : string :=
  let n := nat_of_ascii c in
  if Ascii.eqb c quote || Ascii.eqb c "\"%char then String "\"%char (String c EmptyString)
  else if n =? 9 then "\t"
  else if n =? 10 then "\n"
  else if n =? 13 then "\r"
  else if printable c then String c EmptyString
  else String "\"%char (String "x"%char
         (String (hex_digit (n / 16)) (String (hex_digit (n mod 16)) EmptyString))).

Fixpoint repr_body (quote : ascii) (s : string) : string :=
  match s with
  | EmptyString => EmptyString
  | String c s' => repr_char quote c ++ repr_body quote s'
  end.

Definition squote : ascii := ascii_of_nat 39.
Definition dquote : ascii := ascii_of_nat 34.

(** [repr(s)]: single quotes, unless the text has a single quote and no
    double quote. *)
Definition repr (s : string) : string :=
  let q :=
    if contains (String squote EmptyString) s
       && negb (contains (String dquote EmptyString) s)
    then dquote else squote in
  String q (repr_body q s ++ String q EmptyString).

End PyStr.

(* ===================================================================== *)
(** * Python values *)
(* ===================================================================== *)

(** Hashable values, the keys of a [dict]. *)
Inductive key : Type :=
| KNone
| KBool (b : bool)
| KInt (z : Z)
| KStr (s : string).

(** Booleans hash and compare as the integers 0 and 1. *)
Definition key_norm (k : key) : key :=
  match k with
  | KBool b => KInt (if b then 1 else 0)
  | _ => k
  end.

Definition key_eqb (a b : key) : bool :=
  match key_norm a, key_norm b with
  | KNone, KNone => true
  | KInt x, KInt y => Z.eqb x y
  | KStr s, KStr t => String.eqb s t
  | _, _ => false
  end.

(** A [dict] in insertion order. *)
Definition dict (V : Type) : Type := list (key * V).

Fixpoint dict_get {V : Type} (k : key) (d : dict V) : option V :=
  match d with
  | [] => None
  | (k', v) :: d' => if key_eqb k k' then Some v else dict_get k d'
  end.

Definition dict_mem {V : Type} (k : key) (d : dict V) : bool :=
  match dict_get k d with
  | Some _ => true
  | None => false
  end.

(** [d[k] = v]: an existing key keeps its position (and its first
    spelling), a new key goes to the end. *)
Fixpoint dict_set {V : Type} (k : key) (v : V) (d : dict V) : dict V :=
  match d with
  | [] => [(k, v)]
  | (k', v') :: d' =>
      if key_eqb k k' then (k', v) :: d' else (k', v') :: dict_set k v d'
  end.

Inductive value : Type :=
| VNone
| VBool (b : bool)
| VInt (z : Z)
| VStr (s : string)
| VList (items : list value)
| VDict (entries : list (key * value)).

Module Py.

(** [bool(v)], the test of [if v] and [not v]. *)
Definition truthy (v : value) : bool :=
  match v with
  | VNone => false
  | VBool b => b
  | VInt z => negb (Z.eqb z 0)
  | VStr s => negb (String.eqb s "")
  | VList l => match l with [] => false | _ :: _ => true end
  | VDict d => match d with [] => false | _ :: _ => true end
  end.

Definition of_key (k : key) : value :=
  match k with
  | KNone => VNone
  | KBool b => VBool b
  | KInt z => VInt z
  | KStr s => VStr s
  end.

(** Hashing a value; lists and dicts are unhashable. *)
Definition to_key (v : value) : result key :=
  match v with
  | VNone => Ok KNone
  | VBool b => Ok (KBool b)
  | VInt z => Ok (KInt z)
  | VStr s => Ok (KStr s)
  | VList _ | VDict _ => Raise TypeError
  end.

Definition repr_key (k : key) : string :=
  match k with
  | KNone => "None"
  | KBool true => "True"
  | KBool false => "False"
  | KInt z => PyStr.of_Z z
  | KStr s => PyStr.repr s
  end.

(** [repr(v)]. *)
Fixpoint repr (v : value) : string :=
  match v with
  | VNone => "None"
  | VBool true => "True"
  | VBool false => "False"
  | VInt z => PyStr.of_Z z
  | VStr s => PyStr.repr s
  | VList l => "[" ++ PyStr.join ", " (map repr l) ++ "]"
  | VDict d =>
      "{" ++ PyStr.join ", "
               (map (fun kv => match kv with
                               | (k, x) => repr_key k ++ ": " ++ repr x
                               end) d) ++ "}"
  end.

(** [str(v)]: a string is its own text, everything else prints as its
    [repr]. *)
Definition str (v : value) : string :=
  match v with
  | VStr s => s
  | _ => repr v
  end.

Definition is_str (s : string) (v : value) : bool :=
  match v with
  | VStr t => String.eqb s t
  | _ => false
  end.

(** [s in hay] for a string [s]: key membership in a dict, element
    membership in a list, substring test in a string. *)
Definition contains_str (s : string) (hay : value) : result bool :=
  match hay with
  | VDict d => Ok (dict_mem (KStr s) d)
  | VList l => Ok (existsb (is_str s) l)
  | VStr t => Ok (PyStr.contains s t)
  | VNone | VBool _ | VInt _ => Raise TypeError
  end.

(** [obj[s]] for a string [s]. *)
Definition getitem_str (obj : value) (s : string) : result value :=
  match obj with
  | VDict d =>
      match dict_get (KStr s) d with
      | Some v => Ok v
      | None => Raise KeyError
      end
  | _ => Raise TypeError
  end.

(** [obj.get(s, default)]; only a dict has the method. *)
Definition get (obj : value) (s : string) (default : value) : result value :=
  match obj with
  | VDict d =>
      match dict_get (KStr s) d with
      | Some v => Ok v
      | None => Ok default
      end
  | _ => Raise AttributeError
  end.

(** The items a [for] loop or a comprehension draws from [v]. *)
Definition iter (v : value) : result (list value) :=
  match v with
  | VList l => Ok l
  | VStr s => Ok (map VStr (PyStr.chars s))
  | VDict d => Ok (map (fun kv => of_key (fst kv)) d)
  | VNone | VBool _ | VInt _ => Raise TypeError
  end.

(** [r.values()] and [r.keys()]. *)
Definition values (r : value) : result (list value) :=
  match r with
  | VDict d => Ok (map snd d)
  | _ => Raise AttributeError
  end.

Definition keys (r : value) : result (list value) :=
  match r with
  | VDict d => Ok (map (fun kv => of_key (fst kv)) d)
  | _ => Raise AttributeError
  end.

(** [len(v)]. *)
Definition len (v : value) : result nat :=
  match v with
  | VList l => Ok (List.length l)
  | VStr s => Ok (String.length s)
  | VDict d => Ok (List.length d)
  | VNone | VBool _ | VInt _ => Raise TypeError
  end.

(** [v[0]]. *)
Definition getitem_0 (v : value) : result value :=
  match v with
  | VList (x :: _) => Ok x
  | VList [] => Raise IndexError
  | VStr (String c _) => Ok (VStr (String c EmptyString))
  | VStr EmptyString => Raise IndexError
  | VDict d =>
      match dict_get (KInt 0) d with
      | Some x => Ok x
      | None => Raise KeyError
      end
  | VNone | VBool _ | VInt _ => Raise TypeError
  end.

(** [dict(pairs)]: keys are hashed in order, a repeated key keeps its
    first position and takes the last value. *)
Fixpoint dict_of_pairs (acc : dict value) (pairs : list (value * value))
  : result (dict value) :=
  match pairs with
  | [] => Ok acc
  | (k, v) :: rest =>
      (k' <- to_key k ;;
       dict_of_pairs (dict_set k' v acc) rest)%result
  end.

(** [dict(zip(fields, record))]: [zip] first asks [record] for its
    iterator and stops at the shorter of the two. *)
Definition dict_zip (fields : list value) (record : value) : result value :=
  (items <- iter record ;;
   d <- dict_of_pairs [] (combine fields items) ;;
   Ok (VDict d))%result.

End Py.

(* ===================================================================== *)
(** * Paths, files and parsers *)
(* ===================================================================== *)

Module Pathlib.

(** A path is its anchor and its components.  Two leading slashes are an
    anchor of their own, as POSIX allows. *)
Inductive anchor : Type :=
| Relative
| Root
| DoubleRoot.

Record Path : Type := mkPath { anchor_of : anchor; parts : list string }.

Fixpoint leading_slashes (s : string) : nat :=
  match s with
  | String c s' => if Ascii.eqb c "/"%char then S (leading_slashes s') else 0
  | EmptyString => 0
  end.

Definition is_component (c : string) : bool :=
  negb (String.eqb c "") && negb (String.eqb c ".").

(** [Path(s)]: empty components and [.] are dropped, [..] is kept. *)
Definition parse (s : string) : Path :=
  mkPath
    (match leading_slashes s with
     | 0 => Relative
     | 2 => DoubleRoot
     | _ => Root
     end)
    (filter is_component (PyStr.split "/" s)).

(** [p / s]: an anchored right operand replaces the left one. *)
Definition joinpath (p : Path) (s : string) : Path :=
  let q := parse s in
  match anchor_of q with
  | Relative => mkPath (anchor_of p) (parts p ++ parts q)%list
  | _ => q
  end.

(** [p.name]. *)
Definition name (p : Path) : string := last (parts p) "".

(** [p.suffix]: the text from the last dot of the name, when that dot is
    neither the first nor the last character. *)
Definition suffix (p : Path) : string :=
  let n := name p in
  match PyStr.rfind_dot n with
  | Some i =>
      if (0 <? i) && (i <? String.length n - 1) then PyStr.drop i n else ""
  | None => ""
  end.

End Pathlib.

Import Pathlib.
Notation "p // s" := (joinpath p s) (at level 40, left associativity).

Inductive node : Type :=
| Directory
| File (content : string).

(** The surroundings of the registry: what is on disk, and what the two
    parsers make of a file's content (decoding included). *)
Record World : Type := mkWorld {
  node_at : Path -> option node;
  yaml_safe_load : string -> result value;
  json_load : string -> result value
}.

(** [p.exists()]. *)
Definition path_exists (w : World) (p : Path) : bool :=
  match node_at w p with
  | Some _ => true
  | None => false
  end.

(** [open(p, "r")] followed by reading the whole file. *)
Definition open_read (w : World) (p : Path) : result string :=
  match node_at w p with
  | Some (File content) => Ok content
  | Some Directory => Raise IsADirectoryError
  | None => Raise FileNotFoundError
  end.

(* ===================================================================== *)
(** * The registry *)
(* ===================================================================== *)

(** The dataclass.  A manifest is not validated, so every field holds
    whatever value the manifest gives it. *)
Record Standard : Type := mkStandard {
  id : value;
  title : value;
  description : value;
  path : value;
  version : value;
  maintainer : value;
  last_updated : value;
  source : value;
  tags : value
}.

Record StandardsRegistry : Type := mkRegistry {
  registry_path : Path;
  standards : dict Standard;
  data_cache : dict value
}.

(** A method: it may raise, and it may change the registry before it does. *)
Definition M (A : Type) : Type := StandardsRegistry -> result A * StandardsRegistry.

Definition ret {A : Type} (a : A) : M A := fun self => (Ok a, self).

Definition bind {A B : Type} (m : M A) (k : A -> M B) : M B :=
  fun self =>
    match m self with
    | (Ok a, self') => k a self'
    | (Raise e, self') => (Raise e, self')
    end.

Definition lift {A : Type} (r : result A) : M A := fun self => (r, self).

Declare Scope method_scope.
Delimit Scope method_scope with method.
Notation "x <- m ;; k" := (bind m (fun x => k))
  (at level 61, m at next level, right associativity) : method_scope.

(** [self.data_cache[standard_id] = data]. *)
Definition cache_store (standard_id : string) (data : value) : M unit :=
  fun self =>
    (Ok tt,
     mkRegistry (registry_path self) (standards self)
                (dict_set (KStr standard_id) data (data_cache self))).

(** The body of the manifest loop: build the [Standard] of one entry, every
    missing field defaulted, then store it under its id. *)
Definition standard_of_item (item : value) : result Standard :=
  (i <- Py.get item "id" (VStr "") ;;
   t <- Py.get item "title" (VStr "") ;;
   d <- Py.get item "description" (VStr "") ;;
   p <- Py.get item "path" (VStr "") ;;
   v <- Py.get item "version" (VStr "") ;;
   m <- Py.get item "maintainer" (VStr "") ;;
   u <- Py.get item "last_updated" (VStr "") ;;
   s <- Py.get item "source" VNone ;;
   g <- Py.get item "tags" (VList []) ;;
   Ok (mkStandard i t d p v m u s g))%result.

Definition store_item (stds : dict Standard) (item : value) : result (dict Standard) :=
  (standard <- standard_of_item item ;;
   k <- Py.to_key (id standard) ;;
   Ok (dict_set k standard stds))%result.

Fixpoint store_items (stds : dict Standard) (items : list value) : result (dict Standard) :=
  match items with
  | [] => Ok stds
  | item :: rest =>
      (stds' <- store_item stds item ;;
       store_items stds' rest)%result
  end.

Definition _load_registry (w : World) (self : StandardsRegistry) : result StandardsRegistry :=
  let registry_file := registry_path self // "registry.yaml" in
  if negb (path_exists w registry_file) then Ok self
  else
    (text <- open_read w registry_file ;;
     registry_data <- yaml_safe_load w text ;;
     entries <- Py.get registry_data "registry" (VList []) ;;
     items <- Py.iter entries ;;
     stds <- store_items (standards self) items ;;
     Ok (mkRegistry (registry_path self) stds (data_cache self)))%result.

Definition __init__ (w : World) (registry_path : Path) : result StandardsRegistry :=
  _load_registry w (mkRegistry registry_path [] []).

Definition get_standard (self : StandardsRegistry) (standard_id : string) : option Standard :=
  dict_get (KStr standard_id) (standards self).

Definition list_standards (self : StandardsRegistry) : list Standard :=
  map snd (standards self).

(** ** Record normalizer *)

Definition _get_data_records (data : value) : result value :=
  if negb (Py.truthy data) then Ok (VList [])
  else
    (nested <- (has_standard <- Py.contains_str "standard" data ;;
                if has_standard : bool
                then (inner <- Py.getitem_str data "standard" ;;
                      Py.contains_str "data" inner)
                else Ok false) ;;
     if nested : bool
     then (inner <- Py.getitem_str data "standard" ;;
           Py.getitem_str inner "data")
     else
       (flat <- Py.contains_str "data" data ;;
        if flat : bool
        then Py.getitem_str data "data"
        else
          (columnar <- Py.contains_str "records" data ;;
           if columnar : bool
           then
             (descriptors <- Py.get data "fields" (VList []) ;;
              fs <- Py.iter descriptors ;;
              fields <- mapM (fun f => Py.getitem_str f "id") fs ;;
              match fields with
              | [] => Ok (VList [])
              | _ :: _ =>
                  (rows <- Py.getitem_str data "records" ;;
                   rs <- Py.iter rows ;;
                   recs <- mapM (Py.dict_zip fields) rs ;;
                   Ok (VList recs))
              end)
           else Ok (VList []))))%result.

(** ** Data resolver and cache *)

(** [with open(json_path) as f: data = json.load(f)]. *)
Definition read_json (w : World) (json_path : Path) : result value :=
  (text <- open_read w json_path ;;
   json_load w text)%result.

(** The loop over the two fixed file names of the special-cased id. *)
Fixpoint load_school_boards (w : World) (standard_id : string) (json_paths : list Path)
  : M value :=
  match json_paths with
  | [] => ret VNone
  | json_path :: rest =>
      if negb (path_exists w json_path) then load_school_boards w standard_id rest
      else
        (data <- lift (read_json w json_path) ;;
         records <- lift (_get_data_records data) ;;
         if Py.truthy records
         then (_ <- cache_store standard_id data ;; ret data)
         else load_school_boards w standard_id rest)%method
  end.

Definition school_boards_paths (root : Path) : list Path :=
  [ root // "data" // "school_boards_with_acronyms.json";
    root // "data" // "20251030_school_boards.json" ].

(** [path_parts[-1]] and ["/".join(path_parts[:-1])] of a manifest path. *)
Definition filename_of (standard_path : string) : string :=
  last (PyStr.split "/" standard_path) "".

Definition dir_path_of (standard_path : string) : string :=
  PyStr.join "/" (removelast (PyStr.split "/" standard_path)).

Definition possible_paths (root : Path) (standard_path : string) : list Path :=
  let data_path := root // standard_path in
  let filename := filename_of standard_path in
  let dir_path := dir_path_of standard_path in
  [ data_path;
    root // dir_path // ("20251030_" ++ filename);
    root // dir_path // PyStr.replace ".yaml" ".json" filename ].

(** Reading the chosen file: YAML when the suffix says so, JSON otherwise. *)
Definition read_document (w : World) (found_path : Path) : result value :=
  (text <- open_read w found_path ;;
   if String.eqb (suffix found_path) ".yaml"
   then yaml_safe_load w text
   else json_load w text)%result.

(** The tail of [load_standard_data] once a candidate has been chosen. *)
Definition load_found (w : World) (standard_id : string) (found_path : Path) : M value :=
  (data <- lift (read_document w found_path) ;;
   if negb (Py.truthy data) then ret VNone
   else
     (records <- lift (_get_data_records data) ;;
      if negb (Py.truthy records) then ret VNone
      else (_ <- cache_store standard_id data ;; ret data)))%method.

Definition load_standard_data (w : World) (standard_id : string) : M value :=
  fun self =>
    match dict_get (KStr standard_id) (data_cache self) with
    | Some cached => (Ok cached, self)
    | None =>
        match get_standard self standard_id with
        | None => (Ok VNone, self)
        | Some standard =>
            match path standard with
            | VStr standard_path =>
                if String.eqb standard_id "school_boards"
                then load_school_boards w standard_id
                       (school_boards_paths (registry_path self)) self
                else
                  match find (path_exists w)
                             (possible_paths (registry_path self) standard_path) with
                  | None => (Ok VNone, self)
                  | Some found_path => load_found w standard_id found_path self
                  end
            | _ => (Raise TypeError, self)
            end
        end
    end.

(** ** Query layer *)

(** The text a record is searched in. *)
Definition record_text (r : value) : result string :=
  (vs <- Py.values r ;;
   Ok (PyStr.lower (PyStr.join " " (map Py.str (filter Py.truthy vs)))))%result.

Fixpoint select_records (query_lower : string) (records : list value) : result (list value) :=
  match records with
  | [] => Ok []
  | r :: rest =>
      (text <- record_text r ;;
       matches <- select_records query_lower rest ;;
       Ok (if PyStr.contains query_lower text then r :: matches else matches))%result
  end.

(** The result is always a Python list, hence the type. *)
Definition search_records (w : World) (standard_id query : string) : M (list value) :=
  (data <- load_standard_data w standard_id ;;
   if negb (Py.truthy data) then ret []
   else
     (records <- lift (_get_data_records data) ;;
      if negb (Py.truthy records) then ret []
      else
        let query_lower := PyStr.lower query in
        (rs <- lift (Py.iter records) ;;
         lift (select_records query_lower rs))))%method.

(** The result is always a Python dict, hence the type. *)
Definition get_statistics (w : World) (standard_id : string) : M (dict value) :=
  (data <- load_standard_data w standard_id ;;
   if negb (Py.truthy data) then ret []
   else
     (records <- lift (_get_data_records data) ;;
      if negb (Py.truthy records) then ret []
      else
        (n <- lift (Py.len records) ;;
         first <- lift (Py.getitem_0 records) ;;
         ks <- lift (Py.keys first) ;;
         ret [ (KStr "total_records", VInt (Z.of_nat n));
               (KStr "fields", VList ks) ])))%method.

(** ** The search box of the presentation layer *)

Definition nl : string := String (ascii_of_nat 10) EmptyString.

(** One [**key:** value] line per truthy value of a result. *)
Definition show_fields (d : dict value) : string :=
  String.concat ""
    (map (fun kv =>
            if Py.truthy (snd kv)
            then "**" ++ Py.str (Py.of_key (fst kv)) ++ ":** " ++ Py.str (snd kv) ++ "  " ++ nl
            else "") d).

Fixpoint show_results (i : nat) (results : list value) : string :=
  match results with
  | [] => ""
  | result :: rest =>
      "### Result " ++ PyStr.of_Z (Z.of_nat i) ++ nl ++ nl ++
      (match result with
       | VDict d => show_fields d
       | _ => Py.str result ++ nl
       end) ++
      nl ++ "---" ++ nl ++ nl ++
      show_results (S i) rest
  end.

Definition search_standard_records (w : World) (standard_id query : string) : M string :=
  if String.eqb standard_id "" then ret "Please select a standard first."
  else if String.eqb query "" then ret "Please enter a search query."
  else
    (results <- search_records w standard_id query ;;
     match results with
     | [] =>
         fun registry =>
           match get_standard registry standard_id with
           | Some standard =>
               (Ok ("No results found for '" ++ query ++ "' in "
                      ++ Py.str (title standard) ++ "."), registry)
           | None => (Raise AttributeError, registry)
           end
     | _ :: _ =>
         let count := PyStr.of_Z (Z.of_nat (List.length results)) in
         ret ("**Found " ++ count ++ " result(s) for '" ++ query ++ "':**" ++ nl ++ nl ++
              "---" ++ nl ++ nl ++
              show_results 1 (firstn 50 results) ++
              (if 50 <? List.length results
               then nl ++ "*Showing first 50 of " ++ count ++ " results.*" ++ nl
               else ""))
     end)%method.

(* ===================================================================== *)
(** * Notions used in the statements *)
(* ===================================================================== *)

(** The nested test fails cleanly when the document has no ["standard"]
    key, or has one holding a mapping without a ["data"] key. *)
Definition not_nested (d : dict value) : bool :=
  match dict_get (KStr "standard") d with
  | None => true
  | Some (VDict s) => negb (dict_mem (KStr "data") s)
  | Some _ => false
  end.

(** Zipping field ids with the items of one positional record. *)
Definition zip_fields (ks : list key) (items : list value) : dict value :=
  fold_left (fun acc kv => dict_set (fst kv) (snd kv) acc) (combine ks items) [].

Definition distinct_keys (ks : list key) : Prop := NoDup (map key_norm ks).

(** The registry after [self.data_cache[standard_id] = data]. *)
Definition with_cached (standard_id : string) (data : value) (self : StandardsRegistry)
  : StandardsRegistry :=
  mkRegistry (registry_path self) (standards self)
             (dict_set (KStr standard_id) data (data_cache self)).

(** What a resolution attempt can end in: absence or an exception, both
    leaving the registry as it was, or a document that has records and is
    now cached. *)
Definition resolution_outcome (standard_id : string) (self : StandardsRegistry)
  (out : result value * StandardsRegistry) : Prop :=
  out = (Ok VNone, self)
  \/ (exists e, out = (Raise e, self))
  \/ (exists data records,
        out = (Ok data, with_cached standard_id data self)
        /\ _get_data_records data = Ok records
        /\ Py.truthy records = true
        /\ Py.truthy data = true).

(** The invariant of a registry in use: whatever is cached belongs to a
    known id and is a document that has records. *)
Definition cache_ok (self : StandardsRegistry) : Prop :=
  forall sid data,
    dict_get (KStr sid) (data_cache self) = Some data ->
    dict_mem (KStr sid) (standards self) = true
    /\ Py.truthy data = true
    /\ exists records, _get_data_records data = Ok records /\ Py.truthy records = true.

(** The registries a program can hold: the constructor's result, and what
    any call of a method leaves behind, the files being free to change
    between calls. *)
Inductive reachable : StandardsRegistry -> Prop :=
| reach_init w root self :
    __init__ w root = Ok self -> reachable self
| reach_load w sid self :
    reachable self -> reachable (snd (load_standard_data w sid self))
| reach_search w sid q self :
    reachable self -> reachable (snd (search_records w sid q self))
| reach_statistics w sid self :
    reachable self -> reachable (snd (get_statistics w sid self))
| reach_search_box w sid q self :
    reachable self -> reachable (snd (search_standard_records w sid q self)).




(** A candidate the special-cased loop passes over: it is not on disk, or
    it is and normalizes to no record. *)
Definition skipped (w : World) (candidate : Path) : Prop :=
  path_exists w candidate = false
  \/ (path_exists w candidate = true
      /\ exists doc records,
           read_json w candidate = Ok doc
           /\ _get_data_records doc = Ok records
           /\ Py.truthy records = false).

(** Two worlds that show the same files at the given paths and parse
    alike; elsewhere they may differ. *)
Definition same_files (w w' : World) (paths : list Path) : Prop :=
  (forall c, In c paths -> node_at w' c = node_at w c)
  /\ (forall text, yaml_safe_load w' text = yaml_safe_load w text)
  /\ (forall text, json_load w' text = json_load w text).

(** The document was read from a file of the world, before any
    normalization. *)
Definition read_from (w : World) (data : value) : Prop :=
  exists found, read_document w found = Ok data \/ read_json w found = Ok data.







(** A manifest entry that is a mapping, read field by field with the
    defaults of the manifest loop. *)
Definition field_or (e : dict value) (name : string) (default : value) : value :=
  match dict_get (KStr name) e with
  | Some v => v
  | None => default
  end.

Definition standard_of_entry (e : dict value) : Standard :=
  mkStandard (field_or e "id" (VStr "")) (field_or e "title" (VStr ""))
             (field_or e "description" (VStr "")) (field_or e "path" (VStr ""))
             (field_or e "version" (VStr "")) (field_or e "maintainer" (VStr ""))
             (field_or e "last_updated" (VStr "")) (field_or e "source" VNone)
             (field_or e "tags" (VList [])).

Definition hashable (v : value) : bool :=
  match v with
  | VList _ | VDict _ => false
  | _ => true
  end.

(** The key a hashable value is stored under. *)
Definition key_of (v : value) : key :=
  match v with
  | VBool b => KBool b
  | VInt z => KInt z
  | VStr s => KStr s
  | _ => KNone
  end.

Definition entry_key (e : dict value) : key := key_of (id (standard_of_entry e)).

(** One turn of the manifest loop on a well-formed entry. *)
Definition store_entry (stds : dict Standard) (e : dict value) : dict Standard :=
  dict_set (entry_key e) (standard_of_entry e) stds.

(** The descriptor of the last entry stored under [k]. *)
Fixpoint last_with_key (k : key) (entries : list (dict value)) : option Standard :=
  match entries with
  | [] => None
  | e :: rest =>
      match last_with_key k rest with
      | Some s => Some s
      | None => if key_eqb k (entry_key e) then Some (standard_of_entry e) else None
      end
  end.

(** The keys of [ks] in the order of their first appearance, those already
    [seen] left out. *)
Fixpoint first_seen (seen ks : list key) : list key :=
  match ks with
  | [] => []
  | k :: rest =>
      if existsb (key_eqb k) seen then first_seen seen rest
      else k :: first_seen (seen ++ [k])%list rest
  end.

(** No two keys of the dict are equal. *)
Fixpoint dict_wf {V : Type} (d : dict V) : Prop :=
  match d with
  | [] => True
  | (k, _) :: d' => dict_get k d' = None /\ dict_wf d'
  end.

(* ===================================================================== *)
(** * A concrete registry *)
(* ===================================================================== *)

(** Worlds given by tables: files by path, parser results by content. *)
Fixpoint assoc {A : Type} (k : string) (table : list (string * A)) : option A :=
  match table with
  | [] => None
  | (k', a) :: rest => if String.eqb k k' then Some a else assoc k rest
  end.

Definition anchor_eqb (a b : anchor) : bool :=
  match a, b with
  | Relative, Relative | Root, Root | DoubleRoot, DoubleRoot => true
  | _, _ => false
  end.

Fixpoint parts_eqb (a b : list string) : bool :=
  match a, b with
  | [], [] => true
  | x :: a', y :: b' => String.eqb x y && parts_eqb a' b'
  | _, _ => false
  end.

Definition path_eqb (p q : Path) : bool :=
  anchor_eqb (anchor_of p) (anchor_of q) && parts_eqb (parts p) (parts q).

Fixpoint node_in (files : list (string * node)) (p : Path) : option node :=
  match files with
  | [] => None
  | (name, n) :: rest =>
      if path_eqb p (Pathlib.parse name) then Some n else node_in rest p
  end.

Definition parse_with (e : exn) (table : list (string * value)) (text : string)
  : result value :=
  match assoc text table with
  | Some v => Ok v
  | None => Raise e
  end.

Definition table_world (files : list (string * node)) (yaml json : list (string * value))
  : World :=
  mkWorld (node_in files) (parse_with YAMLError yaml) (parse_with JSONDecodeError json).

Module Demo.

Definition root : Path := Pathlib.parse "/srv/registry".

Definition entry (i t p : string) : value :=
  VDict [ (KStr "id", VStr i); (KStr "title", VStr t); (KStr "path", VStr p);
          (KStr "version", VStr "1.0"); (KStr "tags", VList [VStr "reference"]) ].

Definition manifest : value :=
  VDict [ (KStr "registry",
           VList [ entry "codes" "Codes" "data/codes.yaml";
                   entry "words" "Words" "data/words.yaml";
                   entry "school_boards" "School boards" "data/school_boards.yaml";
                   entry "empty" "Empty" "data/empty.yaml";
                   entry "missing" "Missing" "data/missing.yaml" ]) ].

Definition code_zero : dict value := [ (KStr "code", VInt 0); (KStr "name", VStr "abcdef") ].
Definition code_seven : dict value := [ (KStr "code", VInt 7); (KStr "name", VStr "xyz") ].

Definition codes_doc : value :=
  VDict [ (KStr "data", VList [VDict code_zero; VDict code_seven]) ].

(** The word "strasse" spelled with the sharp s, code point 223. *)
Definition sharp_s : string := String (ascii_of_nat 223) EmptyString.
Definition street : dict value := [ (KStr "name", VStr ("stra" ++ sharp_s ++ "e")) ].

Definition words_doc : value :=
  VDict [ (KStr "standard", VDict [ (KStr "data", VList [VDict street]) ]) ].

Definition boards_without_fields : value :=
  VDict [ (KStr "fields", VList []);
          (KStr "records", VList [VList [VInt 1; VStr "x"]]) ].

Definition boards_doc : value :=
  VDict [ (KStr "fields", VList [ VDict [(KStr "id", VStr "a")];
                                  VDict [(KStr "id", VStr "b")] ]);
          (KStr "records", VList [ VList [VInt 1; VStr "x"];
                                   VList [VInt 2; VStr "y"] ]) ].

Definition no_rows_doc : value := VDict [ (KStr "data", VList []) ].

Definition world : World :=
  table_world
    [ ("/srv/registry", Directory);
      ("/srv/registry/data", Directory);
      ("/srv/registry/registry.yaml", File "manifest");
      ("/srv/registry/data/codes.yaml", File "codes");
      ("/srv/registry/data/words.json", File "words");
      ("/srv/registry/data/school_boards_with_acronyms.json", File "boards-no-fields");
      ("/srv/registry/data/20251030_school_boards.json", File "boards");
      ("/srv/registry/data/empty.yaml", File "no-rows");
      ("/srv/registry/data/20251030_empty.yaml", File "codes") ]
    [ ("manifest", manifest); ("codes", codes_doc); ("no-rows", no_rows_doc) ]
    [ ("words", words_doc); ("boards-no-fields", boards_without_fields);
      ("boards", boards_doc) ].

(** The same disk after every data file has been deleted. *)
Definition wiped : World :=
  table_world [ ("/srv/registry", Directory) ] [] [].

Definition standard (i t p : string) : Standard :=
  mkStandard (VStr i) (VStr t) (VStr "") (VStr p) (VStr "1.0") (VStr "") (VStr "")
             VNone (VList [VStr "reference"]).

(** The registry the constructor builds from [world]. *)
Definition registry : StandardsRegistry :=
  mkRegistry root
    [ (KStr "codes", standard "codes" "Codes" "data/codes.yaml");
      (KStr "words", standard "words" "Words" "data/words.yaml");
      (KStr "school_boards", standard "school_boards" "School boards" "data/school_boards.yaml");
      (KStr "empty", standard "empty" "Empty" "data/empty.yaml");
      (KStr "missing", standard "missing" "Missing" "data/missing.yaml") ]
    [].

(** The registry after ["codes"] has been loaded. *)
Definition loaded : StandardsRegistry := with_cached "codes" codes_doc registry.


(** A manifest that lists the id ["codes"] twice, around ["words"]. *)
Definition twice_entries : list (dict value) :=
  [ [ (KStr "id", VStr "codes"); (KStr "title", VStr "Codes, first edition") ];
    [ (KStr "id", VStr "words"); (KStr "title", VStr "Words") ];
    [ (KStr "id", VStr "codes"); (KStr "title", VStr "Codes, second edition");
      (KStr "path", VStr "data/codes.yaml") ] ].

Definition twice_world : World :=
  table_world
    [ ("/srv/registry/registry.yaml", File "twice") ]
    [ ("twice", VDict [ (KStr "registry", VList (map VDict twice_entries)) ]) ]
    [].

(** The disk of [world] with a data file for the id ["missing"] added. *)
Definition restocked : World :=
  table_world
    [ ("/srv/registry/data/missing.yaml", File "codes") ]
    [ ("codes", codes_doc) ]
    [].

End Demo.

(* ===================================================================== *)
(** * Notions used in further statements *)
(* ===================================================================== *)

(** One call of a method on the registry, in whatever world. *)
Inductive step : StandardsRegistry -> StandardsRegistry -> Prop :=
| step_load w sid self :
    step self (snd (load_standard_data w sid self))
| step_search w sid q self :
    step self (snd (search_records w sid q self))
| step_statistics w sid self :
    step self (snd (get_statistics w sid self))
| step_search_box w sid q self :
    step self (snd (search_standard_records w sid q self)).

(** The registry some calls later. *)
Inductive later : StandardsRegistry -> StandardsRegistry -> Prop :=
| later_now self : later self self
| later_call self mid self' : later self mid -> step mid self' -> later self self'.

Definition is_mapping (v : value) : bool :=
  match v with
  | VDict _ => true
  | _ => false
  end.



(** ** Further concrete cases *)

Module Cases.

Definition entries : list (dict value) :=
  [ [ (KStr "id", VStr "mixed"); (KStr "title", VStr "Mixed");
      (KStr "path", VStr "data/mixed.json") ];
    [ (KStr "id", VStr "nopath"); (KStr "title", VStr "No path") ];
    [ (KStr "id", VStr "broken"); (KStr "path", VStr "data/broken.yaml") ];
    [ (KStr "id", VStr "school_boards"); (KStr "path", VStr "data/school_boards.yaml") ];
    [ (KStr "id", VStr "numbered"); (KStr "path", VInt 5) ];
    [ (KStr "id", VStr "numeric"); (KStr "title", VStr "Numeric columns");
      (KStr "path", VStr "data/numeric.json") ] ].

Definition manifest : value :=
  VDict [ (KStr "registry", VList (map VDict entries)) ].

(** A dataset with a record that is a bare string. *)
Definition mixed_doc : value :=
  VDict [ (KStr "data", VList [ VDict [(KStr "name", VStr "abc")]; VStr "loose" ]) ].

(** A columnar dataset whose field ids are numbers. *)
Definition numeric_doc : value :=
  VDict [ (KStr "fields", VList [ VDict [(KStr "id", VInt 1)];
                                  VDict [(KStr "id", VInt 2)] ]);
          (KStr "records", VList [ VList [VInt 10; VInt 20] ]) ].

(** The data file of ["broken"] and the first file of ["school_boards"]
    hold text no parser accepts. *)
Definition world : World :=
  table_world
    [ ("/srv/registry", Directory);
      ("/srv/registry/data", Directory);
      ("/srv/registry/registry.yaml", File "cases");
      ("/srv/registry/data/mixed.json", File "mixed");
      ("/srv/registry/data/broken.yaml", File "garbage");
      ("/srv/registry/data/school_boards_with_acronyms.json", File "garbage");
      ("/srv/registry/data/20251030_school_boards.json", File "boards");
      ("/srv/registry/data/numeric.json", File "numeric") ]
    [ ("cases", manifest) ]
    [ ("mixed", mixed_doc); ("boards", Demo.boards_doc); ("numeric", numeric_doc) ].

Definition registry : StandardsRegistry :=
  mkRegistry Demo.root
    (map (fun e => (entry_key e, standard_of_entry e)) entries) [].

(** A registry directory whose manifest is an empty file. *)
Definition blank_manifest_world : World :=
  table_world
    [ ("/srv/registry", Directory); ("/srv/registry/registry.yaml", File "") ]
    [ ("", VNone) ]
    [].

(** A manifest whose second entry has a list for an id. *)
Definition list_id_entry : dict value := [ (KStr "id", VList [VStr "a"; VStr "b"]) ].

Definition list_id_world : World :=
  table_world
    [ ("/srv/registry/registry.yaml", File "list-id") ]
    [ ("list-id",
       VDict [ (KStr "registry",
                VList [ VDict [ (KStr "id", VStr "codes") ]; VDict list_id_entry ]) ]) ]
    [].

(** A columnar document that names the field ["a"] twice and has a row
    longer and a row shorter than the field list. *)
Definition repeated_field : dict value :=
  [ (KStr "fields", VList [ VDict [(KStr "id", VStr "a")];
                            VDict [(KStr "id", VStr "b")];
                            VDict [(KStr "id", VStr "a")] ]);
    (KStr "records", VList [ VList [VInt 1; VInt 2; VInt 3; VInt 4];
                             VList [VInt 5] ]) ].

End Cases.



(** The standards mapping as the manifest loop builds it: no two keys are
    equal, and every descriptor sits under the key its own id hashes to. *)
Definition standards_ok (stds : dict Standard) : Prop :=
  dict_wf stds
  /\ Forall (fun ks => exists k, Py.to_key (id (snd ks)) = Ok k
                                 /\ key_eqb k (fst ks) = true) stds.

(** A file name of the form [stem.yaml] with a non-empty stem. *)
Definition yaml_name (n : string) : Prop :=
  exists stem, stem <> "" /\ n = stem ++ ".yaml".



(** ** Presentation helpers *)

(** The first [n] characters of a string. *)
Fixpoint take_chars (n : nat) (s : string) : string :=
  match n, s with
  | O, _ => ""
  | S _, EmptyString => ""
  | S n', String c s' => String c (take_chars n' s')
  end.



Definition format_standard_info (standard : Standard) : result string :=
  let info :=
    "# " ++ Py.str (title standard) ++ nl ++ nl ++
    "**ID:** `" ++ Py.str (id standard) ++ "`" ++ nl ++ nl ++
    "**Description:** " ++ Py.str (description standard) ++ nl ++ nl ++
    "**Version:** " ++ Py.str (version standard) ++ nl ++ nl ++
    "**Maintainer:** " ++ Py.str (maintainer standard) ++ nl ++ nl ++
    "**Last Updated:** " ++ Py.str (last_updated standard) ++ nl ++ nl in
  (info <- (if Py.truthy (source standard)
            then (source_name <- Py.get (source standard) "name" (VStr "N/A") ;;
                  source_url <- Py.get (source standard) "url" (VStr "#") ;;
                  Ok (info ++ "**Source:** [" ++ Py.str source_name ++ "]("
                           ++ Py.str source_url ++ ")" ++ nl ++ nl))
            else Ok info) ;;
   if Py.truthy (tags standard)
   then (items <- Py.iter (tags standard) ;;
         let tags_str := PyStr.join ", " (map (fun tag => "`" ++ Py.str tag ++ "`") items) in
         Ok (info ++ "**Tags:** " ++ tags_str ++ nl ++ nl))
   else Ok info)%result.






(** ** The details view *)

(** The presentation layer can fail in one more way than the registry:
    a format specification that does not fit the value. *)
Inductive ui_exn : Type :=
| Core (e : exn)
| ValueError.

Inductive answer (A : Type) : Type :=
| Shown (a : A)
| Failed (e : ui_exn).

Arguments Shown {A} a.
Arguments Failed {A} e.

(** Digits with a comma before every group of three that is not the
    first. *)
Fixpoint commas (digits : string) : string :=
  match digits with
  | EmptyString => EmptyString
  | String c rest =>
      String c (if (0 <? String.length rest) && (String.length rest mod 3 =? 0)
                then "," ++ commas rest
                else commas rest)
  end.

(** [f"{n:,}"] for an integer. *)
Definition format_thousands (z : Z) : string :=
  if (z <? 0)%Z then "-" ++ commas (PyStr.of_Z (- z)) else commas (PyStr.of_Z z).

(** [f"{v:,}"]: integers and booleans take the comma, a string rejects it
    with [ValueError], everything else with [TypeError]. *)
Definition format_comma (v : value) : answer string :=
  match v with
  | VInt z => Shown (format_thousands z)
  | VBool b => Shown (if b then "1" else "0")
  | VStr _ => Failed ValueError
  | VNone | VList _ | VDict _ => Failed (Core TypeError)
  end.

(** [v[:10]]. *)
Definition slice_10 (v : value) : result value :=
  match v with
  | VList l => Ok (VList (firstn 10 l))
  | VStr s => Ok (VStr (take_chars 10 s))
  | VNone | VBool _ | VInt _ | VDict _ => Raise TypeError
  end.

Definition as_str (v : value) : result string :=
  match v with
  | VStr s => Ok s
  | _ => Raise TypeError
  end.

(** [", ".join(v)]: every item has to be a string. *)
Definition join_names (v : value) : result string :=
  (items <- Py.iter v ;;
   names <- mapM as_str items ;;
   Ok (PyStr.join ", " names))%result.

(** The statistics block of [get_standard_details]. *)
Definition stats_text_of (stats : dict value) : answer string :=
  match stats with
  | [] => Shown ""
  | _ :: _ =>
      match format_comma (field_or stats "total_records" (VInt 0)) with
      | Failed e => Failed e
      | Shown total =>
          let stats_text :=
            "## Statistics" ++ nl ++ nl ++ "**Total Records:** " ++ total ++ "  " ++ nl in
          let fields := field_or stats "fields" VNone in
          if Py.truthy fields
          then
            match (n <- Py.len fields ;;
                   first <- slice_10 fields ;;
                   names <- join_names first ;;
                   Ok (stats_text ++ "**Fields:** " ++ PyStr.of_Z (Z.of_nat n) ++ "  " ++ nl
                         ++ "**Field Names:** " ++ names
                         ++ (if 10 <? n
                             then " *(+" ++ PyStr.of_Z (Z.of_nat n - 10) ++ " more)*"
                             else "")
                         ++ nl))%result with
            | Ok text => Shown text
            | Raise e => Failed (Core e)
            end
          else Shown (stats_text ++ nl)
      end
  end.

Definition items_of (record : value) : result (dict value) :=
  match record with
  | VDict d => Ok d
  | _ => Raise AttributeError
  end.

Fixpoint show_preview (i : nat) (records : list value) : result string :=
  match records with
  | [] => Ok ""
  | record :: rest =>
      (fields <- items_of record ;;
       tail <- show_preview (S i) rest ;;
       Ok ("### Record " ++ PyStr.of_Z (Z.of_nat i) ++ nl ++ nl
             ++ show_fields fields ++ nl ++ tail))%result
  end.

(** The preview block of [get_standard_details]. *)
Definition preview_of (data : value) : result string :=
  if Py.truthy data
  then
    (records <- _get_data_records data ;;
     if Py.truthy records
     then
       (n <- Py.len records ;;
        first <- slice_10 records ;;
        shown <- Py.iter first ;;
        body <- show_preview 1 shown ;;
        Ok ("**Data Preview (showing " ++ PyStr.of_Z (Z.of_nat (Nat.min 10 n)) ++ " of "
              ++ PyStr.of_Z (Z.of_nat n) ++ " records):**" ++ nl ++ nl ++ body))
     else Ok "")%result
  else Ok "".

Definition get_standard_details (w : World) (standard_id : string)
  (registry : StandardsRegistry)
  : answer (string * string * string) * StandardsRegistry :=
  if String.eqb standard_id ""
  then (Shown ("Please select a standard.", "", ""), registry)
  else
    match get_standard registry standard_id with
    | None => (Shown ("Standard not found.", "", ""), registry)
    | Some standard =>
        match format_standard_info standard with
        | Raise e => (Failed (Core e), registry)
        | Ok info =>
            match get_statistics w standard_id registry with
            | (Raise e, registry1) => (Failed (Core e), registry1)
            | (Ok stats, registry1) =>
                match stats_text_of stats with
                | Failed e => (Failed e, registry1)
                | Shown stats_text =>
                    match load_standard_data w standard_id registry1 with
                    | (Raise e, registry2) => (Failed (Core e), registry2)
                    | (Ok data, registry2) =>
                        match preview_of data with
                        | Raise e => (Failed (Core e), registry2)
                        | Ok data_preview =>
                            (Shown (info, stats_text, data_preview), registry2)
                        end
                    end
                end
            end
        end
    end.


(** ** Table headers *)

(** Code points below 256 that count as cased for [str.title]: the
    letters of both cases, the two ordinal indicators and the micro sign. *)
Definition is_cased (c : ascii) : bool :=
  let n := nat_of_ascii c in
  ((65 <=? n) && (n <=? 90)) || ((97 <=? n) && (n <=? 122))
  || (n =? 170) || (n =? 181) || (n =? 186)
  || ((192 <=? n) && (n <=? 214)) || ((216 <=? n) && (n <=? 246))
  || ((248 <=? n) && (n <=? 255)).

(** The title case of one code point: its upper case, except that the
    sharp s becomes [Ss]. *)
Definition title_char (c : ascii) : option string :=
  if nat_of_ascii c =? 223 then Some "Ss" else PyStr.upper_char c.

(** [str.title]: a character after a cased one is lower-cased, any other
    is title-cased.  The result is [None] where [PyStr.upper_char] is. *)
Fixpoint title_from (previous_is_cased : bool) (s : string) : option string :=
  match s with
  | EmptyString => Some EmptyString
  | String c s' =>
      match (if previous_is_cased
             then Some (String (PyStr.lower_char c) EmptyString)
             else title_char c),
            title_from (is_cased c) s' with
      | Some mapped, Some rest => Some (mapped ++ rest)
      | _, _ => None
      end
  end.

Definition str_title (s : string) : option string := title_from false s.

Definition format_header (header : string) : option string :=
  match str_title (PyStr.replace "_" " " header) with
  | Some titled => Some (PyStr.replace "Id" "ID" titled)
  | None => None
  end.


(** Every character of the string passes the test. *)
Fixpoint all_chars (p : ascii -> bool) (s : string) : bool :=
  match s with
  | EmptyString => true
  | String c s' => p c && all_chars p s'
  end.

(** An ASCII character other than the underscore. *)
Definition plain_char (c : ascii) : bool :=
  PyStr.is_ascii_char c && negb (Ascii.eqb c "_").

Definition title_char_ok (c : ascii) : bool :=
  negb (PyStr.is_ascii_char c) ||
  (match title_char c with
   | Some (String c' EmptyString) => PyStr.is_ascii_char c' && (Ascii.eqb c "_" || plain_char c')
   | _ => false
   end
   && PyStr.is_ascii_char (PyStr.lower_char c)
   && (Ascii.eqb c "_" || plain_char (PyStr.lower_char c))).



(* ===================================================================== *)
(** * Facts about keys and dicts *)
(* ===================================================================== *)

Section DictFacts.

Variable V : Type.
Implicit Types (k : key) (d : dict V) (v : V).

Lemma key_eqb_norm a b : key_eqb a b = true <-> key_norm a = key_norm b.
Proof.
  unfold key_eqb.
  destruct a as [| [] | x | s], b as [| [] | y | t]; unfold key_norm; split; intros H;
    try discriminate; try reflexivity.
  all: try (apply Z.eqb_eq in H; now subst).
  all: try (injection H as ->; apply Z.eqb_refl).
  - apply String.eqb_eq in H. now subst.
  - injection H as ->. apply String.eqb_refl.
Qed.

Lemma key_eqb_refl k : key_eqb k k = true.
Proof. now apply key_eqb_norm. Qed.

Lemma key_eqb_sym a b : key_eqb a b = key_eqb b a.
Proof.
  destruct (key_eqb a b) eqn:E1, (key_eqb b a) eqn:E2; try reflexivity.
  - apply key_eqb_norm in E1. symmetry in E1. apply key_eqb_norm in E1. congruence.
  - apply key_eqb_norm in E2. symmetry in E2. apply key_eqb_norm in E2. congruence.
Qed.

Lemma key_eqb_trans a b c :
  key_eqb a b = true -> key_eqb b c = true -> key_eqb a c = true.
Proof. rewrite !key_eqb_norm. congruence. Qed.

(** Equal keys look up alike. *)
Lemma key_eqb_compat a b c : key_eqb a b = true -> key_eqb c a = key_eqb c b.
Proof.
  intros H.
  destruct (key_eqb c a) eqn:E1, (key_eqb c b) eqn:E2; try reflexivity.
  - rewrite (key_eqb_trans _ _ _ E1 H) in E2. discriminate.
  - rewrite key_eqb_sym in H. rewrite (key_eqb_trans _ _ _ E2 H) in E1. discriminate.
Qed.

Lemma KStr_eqb s t : key_eqb (KStr s) (KStr t) = String.eqb s t.
Proof. reflexivity. Qed.

Lemma dict_get_set k k' v d :
  dict_get k' (dict_set k v d) = if key_eqb k' k then Some v else dict_get k' d.
Proof.
  induction d as [| [k0 v0] d IH]; simpl.
  - reflexivity.
  - destruct (key_eqb k k0) eqn:E; simpl.
    + rewrite <- (key_eqb_compat _ _ k' E).
      now destruct (key_eqb k' k).
    + rewrite IH.
      destruct (key_eqb k' k0) eqn:E0; [| reflexivity].
      destruct (key_eqb k' k) eqn:E1; [| reflexivity].
      rewrite key_eqb_sym in E1.
      now rewrite (key_eqb_trans _ _ _ E1 E0) in E.
Qed.

Lemma dict_get_set_same k v d : dict_get k (dict_set k v d) = Some v.
Proof. now rewrite dict_get_set, key_eqb_refl. Qed.

Lemma dict_mem_get k d : dict_mem k d = false <-> dict_get k d = None.
Proof. unfold dict_mem. destruct (dict_get k d); split; congruence. Qed.

(** Storing under a new key appends; storing under an old one keeps the
    key list. *)
Lemma dict_set_new k v d :
  dict_get k d = None -> dict_set k v d = (d ++ [(k, v)])%list.
Proof.
  induction d as [| [k0 v0] d IH]; simpl; intros H.
  - reflexivity.
  - destruct (key_eqb k k0); [discriminate |]. now rewrite IH.
Qed.

Lemma dict_set_keys k v d :
  map fst (dict_set k v d)
  = if dict_mem k d then map fst d else (map fst d ++ [k])%list.
Proof.
  unfold dict_mem.
  induction d as [| [k0 v0] d IH]; simpl.
  - reflexivity.
  - destruct (key_eqb k k0) eqn:E; simpl.
    + reflexivity.
    + rewrite IH. now destruct (dict_get k d).
Qed.

Lemma dict_mem_existsb k d :
  dict_mem k d = existsb (key_eqb k) (map fst d).
Proof.
  unfold dict_mem.
  induction d as [| [k0 v0] d IH]; simpl.
  - reflexivity.
  - destruct (key_eqb k k0); [reflexivity | exact IH].
Qed.

End DictFacts.

(* ===================================================================== *)
(** * The record normalizer *)
(* ===================================================================== *)

Lemma to_key_of_key k : Py.to_key (Py.of_key k) = Ok k.
Proof. now destruct k. Qed.

Lemma dict_of_pairs_keys acc ks items :
  Py.dict_of_pairs acc (combine (map Py.of_key ks) items)
  = Ok (fold_left (fun a kv => dict_set (fst kv) (snd kv) a) (combine ks items) acc).
Proof.
  revert acc items.
  induction ks as [| k ks IH]; intros acc [| x items]; simpl; try reflexivity.
  rewrite to_key_of_key. simpl. apply IH.
Qed.

Lemma dict_zip_keys ks items :
  Py.dict_zip (map Py.of_key ks) (VList items) = Ok (VDict (zip_fields ks items)).
Proof.
  unfold Py.dict_zip. simpl. now rewrite dict_of_pairs_keys.
Qed.

Lemma dict_get_app_none {V : Type} (k : key) (d1 d2 : dict V) :
  dict_get k (d1 ++ d2)%list = match dict_get k d1 with
                               | Some v => Some v
                               | None => dict_get k d2
                               end.
Proof.
  induction d1 as [| [k0 v0] d1 IH]; simpl; [reflexivity |].
  now destruct (key_eqb k k0).
Qed.



Lemma mapM_field_ids (descs : list (dict value)) (ks : list key) :
  map (dict_get (KStr "id")) descs = map (fun k => Some (Py.of_key k)) ks ->
  mapM (fun f => Py.getitem_str f "id") (map VDict descs) = Ok (map Py.of_key ks).
Proof.
  revert ks.
  induction descs as [| fd descs IH]; intros [| k ks] H; simpl in *; try discriminate.
  - reflexivity.
  - injection H as Hk Hrest. rewrite Hk. simpl. now rewrite (IH _ Hrest).
Qed.

Lemma mapM_dict_zip ks (rows : list (list value)) :
  mapM (Py.dict_zip (map Py.of_key ks)) (map VList rows)
  = Ok (map (fun items => VDict (zip_fields ks items)) rows).
Proof.
  induction rows as [| items rows IH]; simpl; [reflexivity |].
  rewrite dict_zip_keys. simpl. now rewrite IH.
Qed.

Lemma normalize_falsy data :
  Py.truthy data = false -> _get_data_records data = Ok (VList []).
Proof. intros H. unfold _get_data_records. now rewrite H. Qed.



(** What is left of the normalizer once the nested test has failed. *)
Lemma normalize_not_nested d :
  d <> [] -> not_nested d = true ->
  _get_data_records (VDict d)
  = (flat <- Py.contains_str "data" (VDict d) ;;
     if flat : bool
     then Py.getitem_str (VDict d) "data"
     else
       (columnar <- Py.contains_str "records" (VDict d) ;;
        if columnar : bool
        then
          (descriptors <- Py.get (VDict d) "fields" (VList []) ;;
           fs <- Py.iter descriptors ;;
           fields <- mapM (fun f => Py.getitem_str f "id") fs ;;
           match fields with
           | [] => Ok (VList [])
           | _ :: _ =>
               (rows <- Py.getitem_str (VDict d) "records" ;;
                rs <- Py.iter rows ;;
                recs <- mapM (Py.dict_zip fields) rs ;;
                Ok (VList recs))
           end)
        else Ok (VList [])))%result.
Proof.
  intros Hne Hn. unfold _get_data_records.
  replace (Py.truthy (VDict d)) with true by (destruct d; [contradiction | reflexivity]).
  unfold not_nested in Hn. simpl. unfold dict_mem at 1.
  destruct (dict_get (KStr "standard") d) as [[| | | | | s] |] eqn:Hs;
    try discriminate; simpl.
  - apply negb_true_iff in Hn. rewrite Hn. reflexivity.
  - reflexivity.
Qed.


Lemma normalize_columnar d descs ks rows :
  not_nested d = true ->
  dict_get (KStr "data") d = None ->
  dict_get (KStr "fields") d = Some (VList (map VDict descs)) ->
  map (dict_get (KStr "id")) descs = map (fun k => Some (Py.of_key k)) ks ->
  dict_get (KStr "records") d = Some (VList (map VList rows)) ->
  _get_data_records (VDict d)
  = Ok (VList (match ks with
               | [] => []
               | _ :: _ => map (fun items => VDict (zip_fields ks items)) rows
               end)).
Proof.
  intros Hn Hd Hf Hids Hr.
  rewrite normalize_not_nested; [| now destruct d | exact Hn].
  simpl. unfold dict_mem. rewrite Hd, Hr, Hf. simpl.
  rewrite (mapM_field_ids _ _ Hids). simpl.
  destruct ks as [| k ks]; simpl; [reflexivity |].
  change (Py.of_key k :: map Py.of_key ks) with (map Py.of_key (k :: ks)).
  rewrite mapM_dict_zip. reflexivity.
Qed.



(* ===================================================================== *)
(** * The loader and its cache *)
(* ===================================================================== *)

Lemma records_truthy_data data records :
  _get_data_records data = Ok records -> Py.truthy records = true ->
  Py.truthy data = true.
Proof.
  intros Hr Ht. destruct (Py.truthy data) eqn:E; [reflexivity |].
  rewrite (normalize_falsy _ E) in Hr. injection Hr as <-. discriminate.
Qed.

Lemma load_school_boards_outcome w sid paths self :
  resolution_outcome sid self (load_school_boards w sid paths self).
Proof.
  induction paths as [| p paths IH]; simpl.
  - now left.
  - destruct (path_exists w p); simpl; [| exact IH].
    unfold bind, lift.
    destruct (read_json w p) as [data | e]; [| right; left; now exists e].
    destruct (_get_data_records data) as [records | e] eqn:Hr;
      [| right; left; now exists e].
    destruct (Py.truthy records) eqn:Ht; [| exact IH].
    right; right. exists data, records. repeat split; try assumption.
    eapply records_truthy_data; eassumption.
Qed.

Lemma load_found_outcome w sid p self :
  resolution_outcome sid self (load_found w sid p self).
Proof.
  unfold load_found, bind, lift.
  destruct (read_document w p) as [data | e]; [| right; left; now exists e].
  destruct (Py.truthy data) eqn:Hd; simpl; [| now left].
  destruct (_get_data_records data) as [records | e] eqn:Hr;
    [| right; left; now exists e].
  destruct (Py.truthy records) eqn:Ht; simpl; [| now left].
  right; right. exists data, records. now repeat split.
Qed.

(** Every call of [load_standard_data] either answers from the cache or is
    a resolution attempt for a known id. *)
Lemma load_standard_data_cases w sid self :
  (exists cached,
      dict_get (KStr sid) (data_cache self) = Some cached
      /\ load_standard_data w sid self = (Ok cached, self))
  \/ (dict_get (KStr sid) (data_cache self) = None
      /\ get_standard self sid = None
      /\ load_standard_data w sid self = (Ok VNone, self))
  \/ (dict_get (KStr sid) (data_cache self) = None
      /\ (exists standard, get_standard self sid = Some standard)
      /\ resolution_outcome sid self (load_standard_data w sid self)).
Proof.
  unfold load_standard_data.
  destruct (dict_get (KStr sid) (data_cache self)) as [cached |] eqn:Hc.
  - left. now exists cached.
  - right. destruct (get_standard self sid) as [standard |] eqn:Hs.
    + right. repeat split; [now exists standard |].
      destruct (path standard); try (right; left; now exists TypeError).
      destruct (String.eqb sid "school_boards").
      * apply load_school_boards_outcome.
      * destruct (find (path_exists w) (possible_paths (registry_path self) s)).
        -- apply load_found_outcome.
        -- now left.
    + left. now repeat split.
Qed.

Lemma cache_ok_with_cached sid data records self :
  cache_ok self ->
  (exists standard, get_standard self sid = Some standard) ->
  _get_data_records data = Ok records -> Py.truthy records = true ->
  Py.truthy data = true ->
  cache_ok (with_cached sid data self).
Proof.
  intros Hok [standard Hs] Hr Ht Hd sid' data'. unfold with_cached; simpl.
  rewrite dict_get_set, KStr_eqb.
  destruct (String.eqb sid' sid) eqn:E.
  - apply String.eqb_eq in E. subst sid'. intros [= <-].
    repeat split; [| assumption | now exists records].
    unfold dict_mem. unfold get_standard in Hs. now rewrite Hs.
  - apply Hok.
Qed.

Lemma load_standard_data_cache_ok w sid self :
  cache_ok self -> cache_ok (snd (load_standard_data w sid self)).
Proof.
  intros Hok.
  destruct (load_standard_data_cases w sid self)
    as [(c & _ & ->) | [(_ & _ & ->) | (_ & Hs & [-> | [(e & ->) | (d & r & -> & Hr & Ht & Hd)]])]];
    simpl; try assumption.
  eapply cache_ok_with_cached; eassumption.
Qed.

(** The query methods change the registry only through the loader. *)
Lemma search_records_state w sid q self :
  snd (search_records w sid q self) = snd (load_standard_data w sid self).
Proof.
  unfold search_records, bind, lift, ret.
  destruct (load_standard_data w sid self) as [[data | e] self']; simpl; [| reflexivity].
  destruct (Py.truthy data); simpl; [| reflexivity].
  destruct (_get_data_records data) as [records | e]; simpl; [| reflexivity].
  destruct (Py.truthy records); simpl; [| reflexivity].
  destruct (Py.iter records); reflexivity.
Qed.

Lemma get_statistics_state w sid self :
  snd (get_statistics w sid self) = snd (load_standard_data w sid self).
Proof.
  unfold get_statistics, bind, lift, ret.
  destruct (load_standard_data w sid self) as [[data | e] self']; simpl; [| reflexivity].
  destruct (Py.truthy data); simpl; [| reflexivity].
  destruct (_get_data_records data) as [records | e]; simpl; [| reflexivity].
  destruct (Py.truthy records); simpl; [| reflexivity].
  destruct (Py.len records); simpl; [| reflexivity].
  destruct (Py.getitem_0 records) as [first |]; simpl; [| reflexivity].
  destruct (Py.keys first); reflexivity.
Qed.

Lemma search_standard_records_state w sid q self :
  snd (search_standard_records w sid q self) = self
  \/ snd (search_standard_records w sid q self) = snd (load_standard_data w sid self).
Proof.
  unfold search_standard_records.
  destruct (String.eqb sid ""); [now left |].
  destruct (String.eqb q ""); [now left |].
  right. rewrite <- (search_records_state w sid q self).
  unfold bind, ret.
  destruct (search_records w sid q self) as [[[| r rs] | e] self']; simpl; try reflexivity.
  now destruct (get_standard self' sid).
Qed.

Lemma init_cache_empty w root self :
  __init__ w root = Ok self -> data_cache self = [].
Proof.
  unfold __init__, _load_registry. simpl.
  destruct (path_exists w (root // "registry.yaml")); simpl.
  - destruct (open_read w (root // "registry.yaml")) as [text |]; simpl; [| discriminate].
    destruct (yaml_safe_load w text) as [doc |]; simpl; [| discriminate].
    destruct (Py.get doc "registry" (VList [])) as [entries |]; simpl; [| discriminate].
    destruct (Py.iter entries) as [items |]; simpl; [| discriminate].
    destruct (store_items [] items); simpl; [| discriminate].
    now intros [= <-].
  - now intros [= <-].
Qed.

Lemma reachable_cache_ok self : reachable self -> cache_ok self.
Proof.
  induction 1 as [w root self Hinit | w sid self _ IH | w sid q self _ IH
                 | w sid self _ IH | w sid q self _ IH].
  - intros sid data. rewrite (init_cache_empty _ _ _ Hinit). discriminate.
  - now apply load_standard_data_cache_ok.
  - rewrite search_records_state. now apply load_standard_data_cache_ok.
  - rewrite get_statistics_state. now apply load_standard_data_cache_ok.
  - destruct (search_standard_records_state w sid q self) as [-> | ->];
      [assumption | now apply load_standard_data_cache_ok].
Qed.

(** An id the manifest does not list is never cached, so every call for it
    takes the unknown-id exit of the loader. *)
Lemma unknown_not_cached self sid :
  cache_ok self -> dict_mem (KStr sid) (standards self) = false ->
  dict_get (KStr sid) (data_cache self) = None.
Proof.
  intros Hok Hu.
  destruct (dict_get (KStr sid) (data_cache self)) as [data |] eqn:Hc; [| reflexivity].
  destruct (Hok _ _ Hc) as [Hm _]. congruence.
Qed.

Lemma load_unknown w self sid :
  cache_ok self -> dict_mem (KStr sid) (standards self) = false ->
  load_standard_data w sid self = (Ok VNone, self).
Proof.
  intros Hok Hu. unfold load_standard_data, get_standard.
  rewrite (unknown_not_cached _ _ Hok Hu).
  apply dict_mem_get in Hu. now rewrite Hu.
Qed.

Lemma search_unknown w self sid q :
  cache_ok self -> dict_mem (KStr sid) (standards self) = false ->
  search_records w sid q self = (Ok [], self).
Proof.
  intros Hok Hu. unfold search_records, bind. now rewrite (load_unknown w _ _ Hok Hu).
Qed.

Lemma statistics_unknown w self sid :
  cache_ok self -> dict_mem (KStr sid) (standards self) = false ->
  get_statistics w sid self = (Ok [], self).
Proof.
  intros Hok Hu. unfold get_statistics, bind. now rewrite (load_unknown w _ _ Hok Hu).
Qed.

(* ===================================================================== *)
(** * Search *)
(* ===================================================================== *)






(** A property of single characters is checked on all 256 of them. *)
Lemma ascii_forall (P : ascii -> bool) :
  forallb P (map ascii_of_nat (seq 0 256)) = true -> forall c, P c = true.
Proof.
  intros H c. rewrite forallb_forall in H. apply H.
  rewrite <- (ascii_nat_embedding c). apply in_map. apply in_seq.
  pose proof (nat_ascii_bounded c). lia.
Qed.




Lemma demo_init : __init__ Demo.world Demo.root = Ok Demo.registry.
Proof. reflexivity. Qed.

Lemma demo_reachable : reachable Demo.registry.
Proof. exact (reach_init Demo.world Demo.root _ demo_init). Qed.

(* ===================================================================== *)
(** * Strings and paths *)
(* ===================================================================== *)

Lemma append_nil_r (s : string) : s ++ "" = s.
Proof. induction s as [| c s IH]; simpl; [reflexivity | now rewrite IH]. Qed.

Lemma append_assoc (a b c : string) : (a ++ b) ++ c = a ++ (b ++ c).
Proof. induction a as [| x a IH]; simpl; [reflexivity | now rewrite IH]. Qed.

Lemma split_on_nonempty sep cur s : PyStr.split_on sep cur s <> [].
Proof.
  revert cur. induction s as [| c s IH]; intros cur; simpl; [discriminate |].
  destruct (Ascii.eqb c sep); [discriminate | apply IH].
Qed.

(** Splitting at a separator splits both sides of it. *)
Lemma split_on_app sep cur a b :
  PyStr.split_on sep cur (a ++ String sep b)
  = (PyStr.split_on sep cur a ++ PyStr.split_on sep "" b)%list.
Proof.
  revert cur. induction a as [| c a IH]; intros cur; simpl.
  - now rewrite Ascii.eqb_refl.
  - destruct (Ascii.eqb c sep); [now rewrite IH | apply IH].
Qed.

Lemma contains_char_cons sep c s :
  PyStr.contains (String sep "") (String c s)
  = Ascii.eqb sep c || PyStr.contains (String sep "") s.
Proof. simpl. now rewrite andb_true_r. Qed.

(** A string without the separator is a single piece. *)
Lemma split_on_without sep cur s :
  PyStr.contains (String sep "") s = false -> PyStr.split_on sep cur s = [cur ++ s].
Proof.
  revert cur. induction s as [| c s IH]; intros cur H.
  - simpl. now rewrite append_nil_r.
  - rewrite contains_char_cons in H. apply orb_false_iff in H as [Hc Hs].
    simpl. rewrite Ascii.eqb_sym, Hc. rewrite (IH _ Hs).
    now rewrite append_assoc.
Qed.

Lemma join_cons sep p ps :
  ps <> [] -> PyStr.join sep (p :: ps) = p ++ sep ++ PyStr.join sep ps.
Proof. destruct ps; [contradiction | reflexivity]. Qed.

(** Joining what a split produced gives the string back. *)
Lemma join_split_on cur s :
  PyStr.join "/" (PyStr.split_on "/" cur s) = cur ++ s.
Proof.
  revert cur. induction s as [| c s IH]; intros cur; simpl.
  - now rewrite append_nil_r.
  - destruct (Ascii.eqb c "/") eqn:E.
    + apply Ascii.eqb_eq in E. subst c.
      rewrite join_cons by apply split_on_nonempty.
      now rewrite IH.
    + rewrite IH. now rewrite append_assoc.
Qed.

Lemma last_snoc {A : Type} (l : list A) (x d : A) : last (l ++ [x]) d = x.
Proof.
  induction l as [| y l IH]; simpl; [reflexivity |].
  destruct (l ++ [x])%list eqn:E; [now destruct l | exact IH].
Qed.

Lemma removelast_snoc {A : Type} (l : list A) (x : A) : removelast (l ++ [x]) = l.
Proof.
  induction l as [| y l IH]; simpl; [reflexivity |].
  destruct (l ++ [x])%list eqn:E; [now destruct l | now rewrite IH].
Qed.

(** The pieces [load_standard_data] cuts a manifest path [dir/file] into. *)
Lemma split_dir_file dir file :
  PyStr.contains "/" file = false ->
  PyStr.split "/" (dir ++ "/" ++ file) = (PyStr.split "/" dir ++ [file])%list.
Proof.
  intros H. unfold PyStr.split.
  change (dir ++ "/" ++ file) with (dir ++ String "/" file).
  rewrite split_on_app. now rewrite (split_on_without _ _ _ H).
Qed.

Lemma leading_slashes_without s :
  PyStr.contains "/" s = false -> leading_slashes s = 0.
Proof.
  destruct s as [| c s]; [reflexivity |].
  intros H. rewrite contains_char_cons in H. apply orb_false_iff in H as [Hc _].
  simpl. now rewrite Ascii.eqb_sym, Hc.
Qed.

Lemma leading_slashes_prefix dir rest :
  leading_slashes (dir ++ String "/" rest) = 0 -> leading_slashes dir = 0.
Proof.
  destruct dir as [| c dir]; simpl; [discriminate |].
  now destruct (Ascii.eqb c "/").
Qed.

Lemma joinpath_relative p s :
  leading_slashes s = 0 ->
  p // s = mkPath (anchor_of p) (parts p ++ filter is_component (PyStr.split "/" s)).
Proof. intros H. unfold joinpath, parse. now rewrite H. Qed.

(** For a relative manifest path [dir/file] the exact candidate is [file]
    in the directory the other two candidates are looked up in. *)
Lemma joinpath_dir_file root dir file :
  leading_slashes (dir ++ "/" ++ file) = 0 ->
  PyStr.contains "/" file = false ->
  root // (dir ++ "/" ++ file) = root // dir // file.
Proof.
  intros Hrel Hfile.
  rewrite (joinpath_relative root _ Hrel).
  rewrite (joinpath_relative root dir (leading_slashes_prefix _ _ Hrel)).
  rewrite (joinpath_relative _ file (leading_slashes_without _ Hfile)).
  simpl. rewrite (split_dir_file _ _ Hfile), filter_app, app_assoc.
  unfold PyStr.split at 3. now rewrite (split_on_without _ _ _ Hfile).
Qed.



(** A path is a bare file name, or a directory part and a bare file name
    around the last slash. *)
Lemma path_dir_file p :
  PyStr.contains "/" p = false
  \/ exists dir file, p = dir ++ "/" ++ file /\ PyStr.contains "/" file = false.
Proof.
  induction p as [| c p IH].
  - now left.
  - destruct IH as [Hno | (dir & file & -> & Hfile)].
    + destruct (Ascii.eqb "/" c) eqn:E.
      * right. apply Ascii.eqb_eq in E. subst c. now exists "", p.
      * left. now rewrite contains_char_cons, E.
    + right. now exists (String c dir), file.
Qed.

Lemma filename_dir_file dir file :
  PyStr.contains "/" file = false ->
  filename_of (dir ++ "/" ++ file) = file /\ dir_path_of (dir ++ "/" ++ file) = dir.
Proof.
  intros H. unfold filename_of, dir_path_of.
  rewrite (split_dir_file _ _ H), last_snoc, removelast_snoc.
  unfold PyStr.split. now rewrite join_split_on.
Qed.

Lemma filename_bare p :
  PyStr.contains "/" p = false -> filename_of p = p /\ dir_path_of p = "".
Proof.
  intros H. unfold filename_of, dir_path_of, PyStr.split.
  now rewrite (split_on_without _ _ _ H).
Qed.

(** The exact manifest path of a relative entry is its file name inside
    the directory the two other candidates are looked up in. *)
Lemma joinpath_dir_path root p :
  leading_slashes p = 0 ->
  root // p = root // dir_path_of p // filename_of p.
Proof.
  intros Hrel.
  destruct (path_dir_file p) as [H | (dir & file & -> & H)].
  - destruct (filename_bare _ H) as [-> ->].
    rewrite !(joinpath_relative _ p Hrel).
    unfold joinpath at 1. simpl. now rewrite app_nil_r.
  - destruct (filename_dir_file dir _ H) as [-> ->].
    now apply joinpath_dir_file.
Qed.

(* ===================================================================== *)
(** * Candidate resolution *)
(* ===================================================================== *)

(** The loader for an id that is known, not cached and not special-cased. *)
Lemma load_generic w self sid standard p :
  String.eqb sid "school_boards" = false ->
  dict_get (KStr sid) (data_cache self) = None ->
  get_standard self sid = Some standard ->
  path standard = VStr p ->
  load_standard_data w sid self
  = match find (path_exists w) (possible_paths (registry_path self) p) with
    | Some found_path => load_found w sid found_path self
    | None => (Ok VNone, self)
    end.
Proof.
  intros Hid Hc Hs Hp. unfold load_standard_data. now rewrite Hc, Hs, Hp, Hid.
Qed.

Lemma load_special w self standard p :
  dict_get (KStr "school_boards") (data_cache self) = None ->
  get_standard self "school_boards" = Some standard ->
  path standard = VStr p ->
  load_standard_data w "school_boards" self
  = load_school_boards w "school_boards" (school_boards_paths (registry_path self)) self.
Proof.
  intros Hc Hs Hp. unfold load_standard_data. now rewrite Hc, Hs, Hp.
Qed.

Lemma find_first_existing w pre found post :
  Forall (fun c => path_exists w c = false) pre ->
  path_exists w found = true ->
  find (path_exists w) (pre ++ found :: post) = Some found.
Proof.
  induction 1 as [| c pre Hc _ IH]; intros Hf; simpl.
  - now rewrite Hf.
  - rewrite Hc. now apply IH.
Qed.

(** A chosen file without content or without records ends the call. *)
Lemma load_found_no_records w sid found self doc :
  read_document w found = Ok doc ->
  (Py.truthy doc = false
   \/ exists records, _get_data_records doc = Ok records /\ Py.truthy records = false) ->
  load_found w sid found self = (Ok VNone, self).
Proof.
  intros Hdoc Hempty. unfold load_found, bind, lift, ret. rewrite Hdoc.
  destruct (Py.truthy doc) eqn:Hd; simpl; [| reflexivity].
  destruct Hempty as [H | (records & Hr & Ht)]; [discriminate |].
  now rewrite Hr, Ht.
Qed.

Lemma path_exists_same w w' c :
  node_at w' c = node_at w c -> path_exists w' c = path_exists w c.
Proof. intros H. unfold path_exists. now rewrite H. Qed.

Lemma read_document_same w w' c :
  node_at w' c = node_at w c ->
  (forall text, yaml_safe_load w' text = yaml_safe_load w text) ->
  (forall text, json_load w' text = json_load w text) ->
  read_document w' c = read_document w c.
Proof.
  intros Hn Hy Hj. unfold read_document, open_read. rewrite Hn.
  destruct (node_at w c) as [[| content] |]; simpl; try reflexivity.
  now rewrite Hy, Hj.
Qed.



(** C10.  For an id other than ["school_boards"] that is known and not yet
    cached: when the first candidate that exists on disk parses to an empty
    document, or to a document that normalizes to no record, the loader
    answers absence at once and leaves the registry as it was.  The later
    candidates play no part: the answer is the same in every world that
    agrees on the candidates up to the one found, whatever the later
    candidates hold there. *)
Theorem no_fall_through
  (w : World) (self : StandardsRegistry) (sid p : string) (standard : Standard)
  (pre post : list Path) (found : Path) (doc : value) :
  String.eqb sid "school_boards" = false ->
  dict_get (KStr sid) (data_cache self) = None ->
  get_standard self sid = Some standard ->
  path standard = VStr p ->
  possible_paths (registry_path self) p = (pre ++ found :: post)%list ->
  Forall (fun c => path_exists w c = false) pre ->
  path_exists w found = true ->
  read_document w found = Ok doc ->
  (Py.truthy doc = false
   \/ exists records, _get_data_records doc = Ok records /\ Py.truthy records = false) ->
  load_standard_data w sid self = (Ok VNone, self)
  /\ forall w', same_files w w' (pre ++ [found]) ->
                load_standard_data w' sid self = (Ok VNone, self).
Proof.
  intros Hid Hc Hs Hp Hcs Hpre Hfound Hdoc Hempty.
  assert (Hgen : forall v,
             Forall (fun c => path_exists v c = false) pre ->
             path_exists v found = true ->
             read_document v found = Ok doc ->
             load_standard_data v sid self = (Ok VNone, self)).
  { intros v Hpre' Hfound' Hdoc'.
    rewrite (load_generic v self sid standard p Hid Hc Hs Hp), Hcs.
    rewrite (find_first_existing v pre found post Hpre' Hfound').
    now apply (load_found_no_records v sid found self doc). }
  split; [now apply Hgen |].
  intros w' (Hnodes & Hyaml & Hjson).
  assert (Hin : In found (pre ++ [found])) by (apply in_or_app; right; now left).
  apply Hgen.
  - rewrite Forall_forall in *. intros c Hcin.
    rewrite (path_exists_same w w' c); [now apply Hpre |].
    apply Hnodes. apply in_or_app. now left.
  - rewrite (path_exists_same w w' found); [exact Hfound | now apply Hnodes].
  - rewrite (read_document_same w w' found); [exact Hdoc | now apply Hnodes | | ]; assumption.
Qed.

Lemma no_fall_through_witness :
  path_exists Demo.world (Demo.root // "data" // "20251030_empty.yaml") = true
  /\ load_standard_data Demo.world "empty" Demo.registry = (Ok VNone, Demo.registry).
Proof.
  split; [reflexivity |].
  exact (proj1 (no_fall_through Demo.world Demo.registry "empty" "data/empty.yaml"
           (Demo.standard "empty" "Empty" "data/empty.yaml")
           []
           [ Demo.root // "data" // "20251030_empty.yaml";
             Demo.root // "data" // "empty.json" ]
           (Demo.root // "data" // "empty.yaml")
           Demo.no_rows_doc
           eq_refl eq_refl eq_refl eq_refl eq_refl
           (Forall_nil _) eq_refl eq_refl
           (or_intror (ex_intro _ (VList []) (conj eq_refl eq_refl))))).
Defined.

(* ===================================================================== *)
(** * The special-cased id *)
(* ===================================================================== *)

Lemma school_boards_step_wins w sid c rest self doc records :
  path_exists w c = true ->
  read_json w c = Ok doc ->
  _get_data_records doc = Ok records -> Py.truthy records = true ->
  load_school_boards w sid (c :: rest) self = (Ok doc, with_cached sid doc self).
Proof.
  intros He Hd Hr Ht. simpl. rewrite He. simpl.
  unfold bind, lift. now rewrite Hd, Hr, Ht.
Qed.

Lemma school_boards_step_skipped w sid c rest self :
  skipped w c ->
  load_school_boards w sid (c :: rest) self = load_school_boards w sid rest self.
Proof.
  intros [Hno | (He & doc & records & Hd & Hr & Ht)]; simpl.
  - now rewrite Hno.
  - rewrite He. simpl. unfold bind, lift. now rewrite Hd, Hr, Ht.
Qed.

(** C3.  For the id ["school_boards"], known and not yet cached, the loader
    looks at [data/school_boards_with_acronyms.json] and then at
    [data/20251030_school_boards.json].  The first of the two that exists and
    normalizes to at least one record is returned (and cached); a first file
    that is missing, or that exists and normalizes to no record, is passed
    over in favour of the second; when both are passed over the answer is
    absence. *)
Theorem school_boards_first_with_records
  (w : World) (self : StandardsRegistry) (standard : Standard) (p : string) :
  dict_get (KStr "school_boards") (data_cache self) = None ->
  get_standard self "school_boards" = Some standard ->
  path standard = VStr p ->
  let first := registry_path self // "data" // "school_boards_with_acronyms.json" in
  let second := registry_path self // "data" // "20251030_school_boards.json" in
  (forall doc records,
      path_exists w first = true ->
      read_json w first = Ok doc ->
      _get_data_records doc = Ok records -> Py.truthy records = true ->
      load_standard_data w "school_boards" self
      = (Ok doc, with_cached "school_boards" doc self))
  /\ (forall doc records,
        skipped w first ->
        path_exists w second = true ->
        read_json w second = Ok doc ->
        _get_data_records doc = Ok records -> Py.truthy records = true ->
        load_standard_data w "school_boards" self
        = (Ok doc, with_cached "school_boards" doc self))
  /\ (skipped w first -> skipped w second ->
      load_standard_data w "school_boards" self = (Ok VNone, self)).
Proof.
  intros Hc Hs Hp first second.
  rewrite (load_special w self standard p Hc Hs Hp).
  unfold school_boards_paths. fold first second.
  split; [| split].
  - intros doc records He Hd Hr Ht.
    now apply (school_boards_step_wins w _ first [second] self doc records).
  - intros doc records Hskip He Hd Hr Ht.
    rewrite (school_boards_step_skipped w _ first [second] self Hskip).
    now apply (school_boards_step_wins w _ second [] self doc records).
  - intros Hskip1 Hskip2.
    rewrite (school_boards_step_skipped w _ first [second] self Hskip1).
    now rewrite (school_boards_step_skipped w _ second [] self Hskip2).
Qed.

Lemma school_boards_first_with_records_witness :
  skipped Demo.world (Demo.root // "data" // "school_boards_with_acronyms.json")
  /\ load_standard_data Demo.world "school_boards" Demo.registry
     = (Ok Demo.boards_doc, with_cached "school_boards" Demo.boards_doc Demo.registry).
Proof.
  assert (Hskip : skipped Demo.world
                    (Demo.root // "data" // "school_boards_with_acronyms.json")).
  { right. split; [reflexivity |].
    exists Demo.boards_without_fields, (VList []). repeat split; reflexivity. }
  split; [exact Hskip |].
  exact (proj1 (proj2 (school_boards_first_with_records Demo.world Demo.registry
           (Demo.standard "school_boards" "School boards" "data/school_boards.yaml")
           "data/school_boards.yaml" eq_refl eq_refl eq_refl))
           Demo.boards_doc
           (VList [ VDict [(KStr "a", VInt 1); (KStr "b", VStr "x")];
                    VDict [(KStr "a", VInt 2); (KStr "b", VStr "y")] ])
           Hskip eq_refl eq_refl eq_refl eq_refl).
Defined.

(* ===================================================================== *)
(** * Cache behaviour *)
(* ===================================================================== *)

Lemma load_school_boards_read_from w sid paths self data self' :
  load_school_boards w sid paths self = (Ok data, self') ->
  data <> VNone -> read_from w data.
Proof.
  induction paths as [| c paths IH]; simpl.
  - intros [= <- _] Hn. now contradiction Hn.
  - destruct (path_exists w c); simpl; [| exact IH].
    unfold bind, lift.
    destruct (read_json w c) as [doc | e] eqn:Hd; [| discriminate].
    destruct (_get_data_records doc) as [records | e]; [| discriminate].
    destruct (Py.truthy records); [| exact IH].
    simpl. intros [= <- _] _. exists c. now right.
Qed.

Lemma load_found_read_from w sid found self data self' :
  load_found w sid found self = (Ok data, self') ->
  data <> VNone -> read_from w data.
Proof.
  unfold load_found, bind, lift, ret.
  destruct (read_document w found) as [doc | e] eqn:Hd; [| discriminate].
  destruct (Py.truthy doc); simpl.
  - destruct (_get_data_records doc) as [records | e]; [| discriminate].
    destruct (Py.truthy records); simpl.
    + intros [= <- _] _. exists found. now left.
    + intros [= <- _] Hn. now contradiction Hn.
  - intros [= <- _] Hn. now contradiction Hn.
Qed.

(** A document returned for an id that was not cached came out of a file. *)
Lemma load_fresh_read_from w sid self data self' :
  dict_get (KStr sid) (data_cache self) = None ->
  load_standard_data w sid self = (Ok data, self') ->
  data <> VNone -> read_from w data.
Proof.
  intros Hc. unfold load_standard_data. rewrite Hc.
  destruct (get_standard self sid) as [standard |].
  - destruct (path standard); try discriminate.
    destruct (String.eqb sid "school_boards").
    + apply load_school_boards_read_from.
    + destruct (find (path_exists w) (possible_paths (registry_path self) s)).
      * apply load_found_read_from.
      * intros [= <- _] Hn. now contradiction Hn.
  - intros [= <- _] Hn. now contradiction Hn.
Qed.

Lemma load_cached w sid self data :
  dict_get (KStr sid) (data_cache self) = Some data ->
  load_standard_data w sid self = (Ok data, self).
Proof. intros H. unfold load_standard_data. now rewrite H. Qed.

(** C6.  Once [load_standard_data] has returned a document for an id, the
    raw document, as it was read from the file and before normalization, is
    in the cache under that id, and every later call returns that same
    document and leaves the registry alone, whatever has become of the files
    since.  A call that returns absence stores nothing: the registry is as
    before and the id is still not cached, so the next call resolves again. *)
Theorem load_once_then_cached
  (w w' : World) (self self' : StandardsRegistry) (sid : string) (out : value) :
  reachable self ->
  load_standard_data w sid self = (Ok out, self') ->
  (out <> VNone ->
     dict_get (KStr sid) (data_cache self') = Some out
     /\ load_standard_data w' sid self' = (Ok out, self')
     /\ (dict_get (KStr sid) (data_cache self) = None -> read_from w out))
  /\ (out = VNone ->
      self' = self /\ dict_get (KStr sid) (data_cache self') = None).
Proof.
  intros Hreach Hload.
  pose proof (reachable_cache_ok self Hreach) as Hok.
  destruct (load_standard_data_cases w sid self)
    as [(cached & Hc & Heq)
       | [(Hc & _ & Heq)
         | (Hc & _ & [Heq | [(e & Heq) | (data & records & Heq & Hr & Ht & Hd)]])]];
    rewrite Heq in Hload; try discriminate; injection Hload as <- <-.
  - split.
    + intros _. repeat split; [exact Hc | now apply load_cached |].
      intros Hnone. congruence.
    + intros ->. destruct (Hok _ _ Hc) as (_ & Habs & _). discriminate.
  - split; [intros Hn; now contradiction Hn | now intros _].
  - split; [intros Hn; now contradiction Hn | now intros _].
  - split.
    + intros Hn.
      assert (Hget : dict_get (KStr sid) (data_cache (with_cached sid data self)) = Some data)
        by (unfold with_cached; simpl; apply dict_get_set_same).
      repeat split; [exact Hget | now apply load_cached |].
      intros _. now apply (load_fresh_read_from w sid self data _ Hc Heq).
    + intros ->. discriminate.
Qed.

(** An id without a data file is looked for again on the next call, and
    found once the file is there. *)
Lemma absence_is_retried :
  load_standard_data Demo.world "missing" Demo.registry = (Ok VNone, Demo.registry)
  /\ load_standard_data Demo.restocked "missing" Demo.registry
     = (Ok Demo.codes_doc, with_cached "missing" Demo.codes_doc Demo.registry).
Proof. split; reflexivity. Qed.

Lemma load_once_then_cached_witness :
  load_standard_data Demo.wiped "codes"
    (with_cached "codes" Demo.codes_doc Demo.registry)
  = (Ok Demo.codes_doc, with_cached "codes" Demo.codes_doc Demo.registry).
Proof.
  refine (proj1 (proj2 (proj1 (load_once_then_cached Demo.world Demo.wiped
            Demo.registry (with_cached "codes" Demo.codes_doc Demo.registry)
            "codes" Demo.codes_doc demo_reachable eq_refl) _))).
  discriminate.
Defined.

(* ===================================================================== *)
(** * Statistics *)
(* ===================================================================== *)

Lemma statistics_of_absence w sid self self' :
  load_standard_data w sid self = (Ok VNone, self') ->
  get_statistics w sid self = (Ok [], self').
Proof. intros H. unfold get_statistics, bind. now rewrite H. Qed.



(* ===================================================================== *)
(** * Unknown ids *)
(* ===================================================================== *)

(** C9.  For an id that is not a key of the registry's mapping, on any
    registry a program can hold and whatever is on disk: [get_standard]
    returns absence, [load_standard_data] returns absence, [search_records]
    returns the empty list and [get_statistics] the empty mapping; each call
    returns normally and leaves the registry unchanged. *)
Theorem unknown_id_is_absent
  (w : World) (self : StandardsRegistry) (sid query : string) :
  reachable self ->
  dict_mem (KStr sid) (standards self) = false ->
  get_standard self sid = None
  /\ load_standard_data w sid self = (Ok VNone, self)
  /\ search_records w sid query self = (Ok [], self)
  /\ get_statistics w sid self = (Ok [], self).
Proof.
  intros Hreach Hu.
  pose proof (reachable_cache_ok self Hreach) as Hok.
  repeat split.
  - unfold get_standard. now apply dict_mem_get.
  - now apply load_unknown.
  - now apply search_unknown.
  - now apply statistics_unknown.
Qed.

Lemma demo_loaded_reachable : reachable Demo.loaded.
Proof. exact (reach_load Demo.world "codes" Demo.registry demo_reachable). Qed.

Lemma unknown_id_is_absent_witness :
  data_cache Demo.loaded <> []
  /\ get_standard Demo.loaded "postal_codes" = None
  /\ load_standard_data Demo.world "postal_codes" Demo.loaded = (Ok VNone, Demo.loaded)
  /\ search_records Demo.world "postal_codes" "abc" Demo.loaded = (Ok [], Demo.loaded)
  /\ get_statistics Demo.world "postal_codes" Demo.loaded = (Ok [], Demo.loaded).
Proof.
  split; [discriminate |].
  exact (unknown_id_is_absent Demo.world Demo.loaded "postal_codes" "abc"
           demo_loaded_reachable eq_refl).
Defined.

(* ===================================================================== *)
(** * Search results *)
(* ===================================================================== *)







(* ===================================================================== *)
(** * Normalizer shapes *)
(* ===================================================================== *)




(* ===================================================================== *)
(** * The manifest *)
(* ===================================================================== *)

Lemma get_field_or (e : dict value) name default :
  Py.get (VDict e) name default = Ok (field_or e name default).
Proof. unfold Py.get, field_or. now destruct (dict_get (KStr name) e). Qed.

Lemma standard_of_item_entry e :
  standard_of_item (VDict e) = Ok (standard_of_entry e).
Proof. unfold standard_of_item. now rewrite !get_field_or. Qed.

Lemma to_key_hashable v : hashable v = true -> Py.to_key v = Ok (key_of v).
Proof. now destruct v. Qed.

Lemma store_items_entries entries : forall stds,
  Forall (fun e => hashable (id (standard_of_entry e)) = true) entries ->
  store_items stds (map VDict entries) = Ok (fold_left store_entry entries stds).
Proof.
  induction entries as [| e entries IH]; intros stds H; cbn [map store_items];
    [reflexivity |].
  inversion H as [| ? ? He Hrest]; subst.
  unfold store_item. rewrite standard_of_item_entry. cbn [rbind].
  rewrite (to_key_hashable _ He). cbn [rbind fold_left]. now apply IH.
Qed.

(** Last-wins: looking an id up after the loop finds the last entry that
    was stored under it. *)
Lemma fold_store_get k entries : forall stds,
  dict_get k (fold_left store_entry entries stds)
  = match last_with_key k entries with
    | Some s => Some s
    | None => dict_get k stds
    end.
Proof.
  induction entries as [| e entries IH]; intros stds; simpl; [reflexivity |].
  rewrite IH. destruct (last_with_key k entries); [reflexivity |].
  unfold store_entry. rewrite dict_get_set.
  now destruct (key_eqb k (entry_key e)).
Qed.

(** The loop keeps the keys in the order of their first appearance. *)
Lemma fold_store_keys entries : forall stds,
  map fst (fold_left store_entry entries stds)
  = (map fst stds ++ first_seen (map fst stds) (map entry_key entries))%list.
Proof.
  induction entries as [| e entries IH]; intros stds; simpl.
  - now rewrite app_nil_r.
  - rewrite IH. unfold store_entry at 1 2. rewrite dict_set_keys.
    rewrite dict_mem_existsb.
    destruct (existsb (key_eqb (entry_key e)) (map fst stds)); [reflexivity |].
    now rewrite <- app_assoc.
Qed.

Lemma dict_set_wf {V : Type} k (v : V) d : dict_wf d -> dict_wf (dict_set k v d).
Proof.
  induction d as [| [k0 v0] d IH]; simpl.
  - now intros _.
  - intros [Hk Hd]. destruct (key_eqb k k0) eqn:E; simpl.
    + now split.
    + split; [| now apply IH].
      rewrite dict_get_set, key_eqb_sym, E. exact Hk.
Qed.

Lemma fold_store_wf entries : forall stds,
  dict_wf stds -> dict_wf (fold_left store_entry entries stds).
Proof.
  induction entries as [| e entries IH]; intros stds H; simpl; [exact H |].
  apply IH. now apply dict_set_wf.
Qed.

Lemma dict_get_none_key {V : Type} k (d : dict V) k' v :
  dict_get k d = None -> In (k', v) d -> key_eqb k' k = false.
Proof.
  induction d as [| [k0 v0] d IH]; simpl; [contradiction |].
  destruct (key_eqb k k0) eqn:E; [discriminate |].
  intros Hn [[= -> ->] | Hin]; [now rewrite key_eqb_sym | now apply IH].
Qed.

(** In a dict without equal keys every stored pair is found under its key. *)
Lemma dict_wf_lookup {V : Type} (d : dict V) :
  dict_wf d ->
  forall k v, In (k, v) d -> dict_get k d = Some v.
Proof.
  induction d as [| [k0 v0] d IH]; simpl; [contradiction |].
  intros [Hk Hd] k v [[= -> ->] | Hin].
  - now rewrite key_eqb_refl.
  - rewrite (dict_get_none_key k0 d k v Hk Hin). now apply IH.
Qed.

Lemma dict_wf_values {V : Type} (d : dict V) :
  dict_wf d ->
  map Some (map snd d) = map (fun k => dict_get k d) (map fst d).
Proof.
  intros Hwf. rewrite !map_map. apply map_ext_in.
  intros [k v] Hin. simpl. symmetry. now apply dict_wf_lookup.
Qed.

(** With pairwise different keys the loop stores the entries one after the
    other. *)
Lemma fold_store_distinct entries : forall stds,
  distinct_keys (map entry_key entries) ->
  (forall e, In e entries -> dict_get (entry_key e) stds = None) ->
  fold_left store_entry entries stds
  = (stds ++ map (fun e => (entry_key e, standard_of_entry e)) entries)%list.
Proof.
  unfold distinct_keys.
  induction entries as [| e entries IH]; intros stds Hd Hnew; simpl.
  - now rewrite app_nil_r.
  - inversion Hd as [| ? ? Hnot Hd']; subst.
    unfold store_entry at 2. rewrite dict_set_new by (apply Hnew; now left).
    rewrite IH.
    + now rewrite <- app_assoc.
    + exact Hd'.
    + intros e' Hin. rewrite dict_get_app_none, Hnew by now right.
      simpl. destruct (key_eqb (entry_key e') (entry_key e)) eqn:E; [| reflexivity].
      apply key_eqb_norm in E. exfalso. apply Hnot. rewrite <- E.
      apply in_map_iff. exists (entry_key e'). split; [reflexivity |].
      now apply in_map.
Qed.

Lemma last_with_key_last k front e rest :
  key_eqb k (entry_key e) = true ->
  Forall (fun e' => key_eqb k (entry_key e') = false) rest ->
  last_with_key k (front ++ e :: rest) = Some (standard_of_entry e).
Proof.
  intros He Hrest.
  assert (Hnone : last_with_key k rest = None).
  { induction Hrest as [| e' rest' He' _ IH]; simpl; [reflexivity |].
    now rewrite IH, He'. }
  induction front as [| f front IH]; simpl.
  - now rewrite Hnone, He.
  - now rewrite IH.
Qed.

(** The constructor on a manifest that is a mapping with a list of entry
    mappings under ["registry"], each with a hashable id. *)
Lemma init_entries w root text m entries :
  node_at w (root // "registry.yaml") = Some (File text) ->
  yaml_safe_load w text = Ok (VDict m) ->
  dict_get (KStr "registry") m = Some (VList (map VDict entries)) ->
  Forall (fun e => hashable (id (standard_of_entry e)) = true) entries ->
  __init__ w root = Ok (mkRegistry root (fold_left store_entry entries []) []).
Proof.
  intros Hnode Hyaml Hreg Hids.
  unfold __init__, _load_registry, path_exists, open_read. simpl.
  rewrite Hnode. simpl. rewrite Hyaml. simpl. rewrite Hreg. simpl.
  now rewrite (store_items_entries entries [] Hids).
Qed.

(** C8.  On a manifest whose entries are mappings with hashable ids the
    constructor succeeds and the registry it builds behaves as follows.
    Looking an id up returns the descriptor of the last entry with that id,
    every field taken from the entry or defaulted: a later entry with the
    same id silently replaces the earlier one.  [list_standards] lists one
    descriptor per id, in the order in which the ids first appear in the
    manifest, each the last entry of its id.  When no id is repeated, the
    listing is the manifest, entry by entry. *)
Theorem manifest_last_wins
  (w : World) (root : Path) (text : string) (m : dict value)
  (entries : list (dict value)) :
  node_at w (root // "registry.yaml") = Some (File text) ->
  yaml_safe_load w text = Ok (VDict m) ->
  dict_get (KStr "registry") m = Some (VList (map VDict entries)) ->
  Forall (fun e => hashable (id (standard_of_entry e)) = true) entries ->
  exists self,
    __init__ w root = Ok self
    /\ (forall sid, get_standard self sid = last_with_key (KStr sid) entries)
    /\ (forall sid front e rest,
          entries = (front ++ e :: rest)%list ->
          key_eqb (KStr sid) (entry_key e) = true ->
          Forall (fun e' => key_eqb (KStr sid) (entry_key e') = false) rest ->
          get_standard self sid = Some (standard_of_entry e))
    /\ map Some (list_standards self)
       = map (fun k => last_with_key k entries) (first_seen [] (map entry_key entries))
    /\ (distinct_keys (map entry_key entries) ->
        list_standards self = map standard_of_entry entries).
Proof.
  intros Hnode Hyaml Hreg Hids.
  exists (mkRegistry root (fold_left store_entry entries []) []).
  split; [now apply (init_entries w root text m entries) |].
  assert (Hget : forall sid,
             get_standard (mkRegistry root (fold_left store_entry entries []) []) sid
             = last_with_key (KStr sid) entries).
  { intros sid. unfold get_standard. simpl. rewrite fold_store_get.
    now destruct (last_with_key (KStr sid) entries). }
  split; [exact Hget | split; [| split]].
  - intros sid front e rest -> He Hrest. rewrite Hget.
    now apply last_with_key_last.
  - unfold list_standards. simpl.
    rewrite (dict_wf_values (fold_left store_entry entries [])
               (fold_store_wf entries [] I)).
    rewrite fold_store_keys. simpl.
    apply map_ext. intros k. rewrite fold_store_get.
    now destruct (last_with_key k entries).
  - intros Hd. unfold list_standards. simpl.
    rewrite (fold_store_distinct entries [] Hd) by reflexivity.
    simpl. now rewrite map_map.
Qed.

Lemma manifest_last_wins_witness :
  exists self,
    __init__ Demo.twice_world Demo.root = Ok self
    /\ map title (list_standards self)
       = [VStr "Codes, second edition"; VStr "Words"]
    /\ option_map title (get_standard self "codes") = Some (VStr "Codes, second edition").
Proof.
  assert (Hids : Forall (fun e => hashable (id (standard_of_entry e)) = true)
                        Demo.twice_entries)
    by (repeat constructor).
  destruct (manifest_last_wins Demo.twice_world Demo.root "twice"
              [ (KStr "registry", VList (map VDict Demo.twice_entries)) ]
              Demo.twice_entries eq_refl eq_refl eq_refl Hids)
    as (self & Hinit & Hget & _ & Hlist & _).
  exists self. split; [exact Hinit |].
  split.
  - assert (H : map (option_map title) (map Some (list_standards self))
                = map Some [VStr "Codes, second edition"; VStr "Words"])
      by (rewrite Hlist; reflexivity).
    rewrite map_map in H. simpl in H.
    clear - H. revert H. generalize (list_standards self).
    intros l H.
    destruct l as [| a [| b [| c l]]]; try discriminate.
    injection H as Ha Hb. simpl. now rewrite Ha, Hb.
  - rewrite Hget. reflexivity.
Defined.

(* ===================================================================== *)
(** * What the methods keep *)
(* ===================================================================== *)

(** A call leaves the registry as it was or caches one document under an
    id that was not cached. *)
Lemma load_state_cases w sid self :
  snd (load_standard_data w sid self) = self
  \/ (dict_get (KStr sid) (data_cache self) = None
      /\ exists data, snd (load_standard_data w sid self) = with_cached sid data self).
Proof.
  destruct (load_standard_data_cases w sid self)
    as [(c & _ & ->) | [(_ & _ & ->) | (Hc & _ & [-> | [(e & ->) | (d & r & -> & _)]])]];
    simpl; try (now left).
  right. split; [exact Hc | now exists d].
Qed.

Lemma step_cases self self' :
  step self self' ->
  self' = self
  \/ exists sid data,
       dict_get (KStr sid) (data_cache self) = None /\ self' = with_cached sid data self.
Proof.
  intros [w sid s | w sid q s | w sid s | w sid q s].
  - destruct (load_state_cases w sid s) as [-> | (Hc & d & ->)];
      [now left | right; now exists sid, d].
  - rewrite search_records_state.
    destruct (load_state_cases w sid s) as [-> | (Hc & d & ->)];
      [now left | right; now exists sid, d].
  - rewrite get_statistics_state.
    destruct (load_state_cases w sid s) as [-> | (Hc & d & ->)];
      [now left | right; now exists sid, d].
  - destruct (search_standard_records_state w sid q s) as [-> | ->]; [now left |].
    destruct (load_state_cases w sid s) as [-> | (Hc & d & ->)];
      [now left | right; now exists sid, d].
Qed.

(** X1.  No method call ever touches the manifest side of the registry:
    however many calls of [load_standard_data], [search_records],
    [get_statistics] and [search_standard_records] are made, in whatever
    worlds, the mapping of standards and the registry path stay what the
    constructor made them. *)
Theorem calls_keep_standards (self self' : StandardsRegistry) :
  later self self' ->
  standards self' = standards self /\ registry_path self' = registry_path self.
Proof.
  induction 1 as [s | s mid s' _ [IHs IHp] Hstep]; [now split |].
  destruct (step_cases mid s' Hstep) as [-> | (sid & d & _ & ->)]; [now split |].
  simpl. now split.
Qed.

Lemma demo_later_loaded : later Demo.registry Demo.loaded.
Proof.
  exact (later_call Demo.registry Demo.registry Demo.loaded (later_now Demo.registry)
           (step_load Demo.world "codes" Demo.registry)).
Qed.

Lemma calls_keep_standards_witness :
  standards Demo.loaded = standards Demo.registry
  /\ registry_path Demo.loaded = registry_path Demo.registry.
Proof. exact (calls_keep_standards Demo.registry Demo.loaded demo_later_loaded). Defined.

Lemma later_cached self self' sid d :
  later self self' ->
  dict_get (KStr sid) (data_cache self) = Some d ->
  dict_get (KStr sid) (data_cache self') = Some d.
Proof.
  induction 1 as [s | s mid s' _ IH Hstep]; intros Hc; [exact Hc |].
  specialize (IH Hc).
  destruct (step_cases mid s' Hstep) as [-> | (sid' & d' & Hnone & ->)]; [exact IH |].
  unfold with_cached. simpl. rewrite dict_get_set, KStr_eqb.
  destruct (String.eqb sid sid') eqn:E; [| exact IH].
  apply String.eqb_eq in E. subst sid'. congruence.
Qed.

(** X2.  A cached document is never evicted or replaced: once an id is
    cached, then after any further calls, for this or any other id and in
    whatever worlds, [load_standard_data] still returns that very document
    for it and changes nothing. *)
Theorem cached_document_stays
  (w : World) (self self' : StandardsRegistry) (sid : string) (d : value) :
  later self self' ->
  dict_get (KStr sid) (data_cache self) = Some d ->
  load_standard_data w sid self' = (Ok d, self').
Proof.
  intros Hlater Hc. apply load_cached. now apply (later_cached self self' sid d).
Qed.

Lemma cached_document_stays_witness :
  load_standard_data Demo.wiped "codes"
    (snd (get_statistics Demo.world "school_boards" Demo.loaded))
  = (Ok Demo.codes_doc, snd (get_statistics Demo.world "school_boards" Demo.loaded)).
Proof.
  apply (cached_document_stays Demo.wiped Demo.loaded
           (snd (get_statistics Demo.world "school_boards" Demo.loaded))
           "codes" Demo.codes_doc).
  - exact (later_call Demo.loaded Demo.loaded _ (later_now Demo.loaded)
             (step_statistics Demo.world "school_boards" Demo.loaded)).
  - reflexivity.
Defined.

(** X3.  On a registry a program can hold, [load_standard_data] never
    hands out a document without records: what it returns is absence, or a
    document that normalizes, without an exception, to something non-empty.
    This holds for cached answers as for fresh ones. *)
Theorem loaded_document_has_records
  (w : World) (self self' : StandardsRegistry) (sid : string) (d : value) :
  reachable self ->
  load_standard_data w sid self = (Ok d, self') ->
  d = VNone
  \/ exists records, _get_data_records d = Ok records /\ Py.truthy records = true.
Proof.
  intros Hreach Hload.
  pose proof (reachable_cache_ok self Hreach) as Hok.
  destruct (load_standard_data_cases w sid self)
    as [(c & Hc & Heq)
       | [(_ & _ & Heq)
         | (_ & _ & [Heq | [(e & Heq) | (data & records & Heq & Hr & Ht & _)]])]];
    rewrite Heq in Hload; try discriminate; injection Hload as <- <-.
  - right. destruct (Hok _ _ Hc) as (_ & _ & Hrec). exact Hrec.
  - now left.
  - now left.
  - right. now exists records.
Qed.

Lemma loaded_document_has_records_witness :
  Demo.boards_doc = VNone
  \/ exists records,
       _get_data_records Demo.boards_doc = Ok records /\ Py.truthy records = true.
Proof.
  exact (loaded_document_has_records Demo.world Demo.registry
           (with_cached "school_boards" Demo.boards_doc Demo.registry)
           "school_boards" Demo.boards_doc demo_reachable eq_refl).
Defined.

Lemma len_truthy records n :
  Py.len records = Ok n -> Py.truthy records = true -> 1 <= n.
Proof.
  destruct records as [| b | z | s | l | d]; simpl; try discriminate;
    intros [= <-] Ht.
  - destruct s; [discriminate | simpl; lia].
  - destruct l; [discriminate | simpl; lia].
  - destruct d; [discriminate | simpl; lia].
Qed.

(** X4.  Whatever the registry and the files, a result of
    [get_statistics] has one of two shapes: the empty mapping, or exactly
    the two entries [total_records], an integer that is at least 1, and
    [fields], a list.  A count of zero is never reported. *)
Theorem statistics_shape
  (w : World) (self self' : StandardsRegistry) (sid : string) (stats : dict value) :
  get_statistics w sid self = (Ok stats, self') ->
  stats = []
  \/ exists n ks,
       1 <= n
       /\ stats = [ (KStr "total_records", VInt (Z.of_nat n)); (KStr "fields", VList ks) ].
Proof.
  unfold get_statistics, bind, lift, ret.
  destruct (load_standard_data w sid self) as [[data | e] s1]; [| discriminate].
  destruct (Py.truthy data); simpl; [| intros [= <- _]; now left].
  destruct (_get_data_records data) as [records | e]; [| discriminate].
  destruct (Py.truthy records) eqn:Ht; simpl; [| intros [= <- _]; now left].
  destruct (Py.len records) as [n | e] eqn:Hn; [| discriminate].
  destruct (Py.getitem_0 records) as [first | e]; [| discriminate].
  destruct (Py.keys first) as [ks | e]; [| discriminate].
  intros [= <- _]. right. exists n, ks. split; [| reflexivity].
  now apply (len_truthy records).
Qed.

Lemma statistics_shape_witness :
  [ (KStr "total_records", VInt 2); (KStr "fields", VList [VStr "a"; VStr "b"]) ] = []
  \/ exists n ks,
       1 <= n
       /\ [ (KStr "total_records", VInt 2); (KStr "fields", VList [VStr "a"; VStr "b"]) ]
          = [ (KStr "total_records", VInt (Z.of_nat n)); (KStr "fields", VList ks) ].
Proof.
  exact (statistics_shape Demo.world Demo.registry
           (with_cached "school_boards" Demo.boards_doc Demo.registry)
           "school_boards"
           [ (KStr "total_records", VInt 2); (KStr "fields", VList [VStr "a"; VStr "b"]) ]
           eq_refl).
Defined.

(* ===================================================================== *)
(** * More on search *)
(* ===================================================================== *)












(** The comprehension of [search_records] selects mappings only, and
    fails with [AttributeError] as soon as one item is not a mapping. *)
Lemma select_records_outcome query_lower items :
  (exists found,
     select_records query_lower items = Ok found
     /\ Forall (fun r => is_mapping r = true) items
     /\ Forall (fun r => is_mapping r = true) found)
  \/ (select_records query_lower items = Raise AttributeError
      /\ exists r, In r items /\ is_mapping r = false).
Proof.
  induction items as [| r items IH]; simpl.
  - left. exists []. repeat split; constructor.
  - destruct r as [| b | z | s | l | d];
      try (right; split; [reflexivity | eexists; split; [now left | reflexivity]]).
    unfold record_text. cbn [Py.values rbind].
    destruct IH as [(found & -> & Hitems & Hfound) | (-> & r & Hin & Hr)].
    + left. cbn [rbind].
      eexists. split; [reflexivity |]. split; [now constructor |].
      destruct (PyStr.contains query_lower _); [now constructor | exact Hfound].
    + right. split; [reflexivity |]. exists r. split; [now right | exact Hr].
Qed.

(** X6.  Every record [search_records] returns is a mapping, whatever the
    registry, the files and the query: the branch of
    [search_standard_records] for results that are not mappings is never
    taken. *)
Theorem search_results_are_mappings
  (w : World) (self self' : StandardsRegistry) (sid q : string) (found : list value) :
  search_records w sid q self = (Ok found, self') ->
  Forall (fun r => is_mapping r = true) found.
Proof.
  unfold search_records, bind, lift, ret.
  destruct (load_standard_data w sid self) as [[data | e] s1]; [| discriminate].
  destruct (Py.truthy data); simpl; [| intros [= <- _]; constructor].
  destruct (_get_data_records data) as [records | e]; [| discriminate].
  destruct (Py.truthy records); simpl; [| intros [= <- _]; constructor].
  destruct (Py.iter records) as [items | e]; [| discriminate].
  simpl.
  destruct (select_records_outcome (PyStr.lower q) items)
    as [(f & -> & _ & Hf) | (-> & _)]; [| discriminate].
  now intros [= <- _].
Qed.

Lemma search_results_are_mappings_witness :
  Forall (fun r => is_mapping r = true) [VDict Demo.code_zero].
Proof.
  exact (search_results_are_mappings Demo.world Demo.registry Demo.loaded "codes" "abc"
           [VDict Demo.code_zero] eq_refl).
Defined.


Lemma cases_init : __init__ Cases.world Demo.root = Ok Cases.registry.
Proof. reflexivity. Qed.

Lemma cases_reachable : reachable Cases.registry.
Proof. exact (reach_init Cases.world Demo.root _ cases_init). Qed.


(* ===================================================================== *)
(** * Answers from the cache *)
(* ===================================================================== *)




(* ===================================================================== *)
(** * Failures of the loader *)
(* ===================================================================== *)

Lemma load_found_raises w sid found self e :
  read_document w found = Raise e ->
  load_found w sid found self = (Raise e, self).
Proof. intros H. unfold load_found, bind, lift. now rewrite H. Qed.

Lemma search_of_raise w sid q self e self' :
  load_standard_data w sid self = (Raise e, self') ->
  search_records w sid q self = (Raise e, self').
Proof. intros H. unfold search_records, bind. now rewrite H. Qed.

Lemma statistics_of_raise w sid self e self' :
  load_standard_data w sid self = (Raise e, self') ->
  get_statistics w sid self = (Raise e, self').
Proof. intros H. unfold get_statistics, bind. now rewrite H. Qed.

(** X9.  A data file that cannot be read or parsed is a loud failure, not
    an absence.  For a known, uncached id other than ["school_boards"], when
    reading the first candidate that exists raises (it is a directory, or
    its parser rejects the content), [load_standard_data] raises the same
    exception, and so do [search_records] and [get_statistics]; the later
    candidates are not tried and the registry is left as it was, so the
    next call tries again. *)
Theorem unreadable_file_raises
  (w : World) (self : StandardsRegistry) (sid q p : string) (standard : Standard)
  (pre post : list Path) (found : Path) (e : exn) :
  String.eqb sid "school_boards" = false ->
  dict_get (KStr sid) (data_cache self) = None ->
  get_standard self sid = Some standard ->
  path standard = VStr p ->
  possible_paths (registry_path self) p = (pre ++ found :: post)%list ->
  Forall (fun c => path_exists w c = false) pre ->
  path_exists w found = true ->
  read_document w found = Raise e ->
  load_standard_data w sid self = (Raise e, self)
  /\ search_records w sid q self = (Raise e, self)
  /\ get_statistics w sid self = (Raise e, self).
Proof.
  intros Hid Hc Hs Hp Hcs Hpre Hf Hread.
  assert (Hload : load_standard_data w sid self = (Raise e, self)).
  { rewrite (load_generic w self sid standard p Hid Hc Hs Hp), Hcs.
    rewrite (find_first_existing w pre found post Hpre Hf).
    now apply load_found_raises. }
  split; [exact Hload |].
  split; [now apply search_of_raise | now apply statistics_of_raise].
Qed.

Lemma unreadable_file_raises_witness :
  load_standard_data Cases.world "broken" Cases.registry
  = (Raise YAMLError, Cases.registry)
  /\ search_records Cases.world "broken" "abc" Cases.registry
     = (Raise YAMLError, Cases.registry)
  /\ get_statistics Cases.world "broken" Cases.registry
     = (Raise YAMLError, Cases.registry).
Proof.
  exact (unreadable_file_raises Cases.world Cases.registry "broken" "abc"
           "data/broken.yaml"
           (standard_of_entry [ (KStr "id", VStr "broken");
                                (KStr "path", VStr "data/broken.yaml") ])
           []
           [ Demo.root // "data" // "20251030_broken.yaml";
             Demo.root // "data" // "broken.json" ]
           (Demo.root // "data" // "broken.yaml") YAMLError
           eq_refl eq_refl eq_refl eq_refl eq_refl (Forall_nil _) eq_refl eq_refl).
Defined.

(** X10.  The special-cased id falls through on a first file without
    records, but not on a first file that fails.  For ["school_boards"],
    known and uncached, when [data/school_boards_with_acronyms.json] exists
    and reading it raises, or its document makes the normalizer raise,
    [load_standard_data] raises that exception and leaves the registry as
    it was; [data/20251030_school_boards.json] is not tried, however good
    it is. *)
Theorem school_boards_failure_stops
  (w : World) (self : StandardsRegistry) (standard : Standard) (p : string) (e : exn) :
  dict_get (KStr "school_boards") (data_cache self) = None ->
  get_standard self "school_boards" = Some standard ->
  path standard = VStr p ->
  let first := registry_path self // "data" // "school_boards_with_acronyms.json" in
  path_exists w first = true ->
  (read_json w first = Raise e
   \/ exists doc, read_json w first = Ok doc /\ _get_data_records doc = Raise e) ->
  load_standard_data w "school_boards" self = (Raise e, self).
Proof.
  intros Hc Hs Hp first He Hfail.
  rewrite (load_special w self standard p Hc Hs Hp).
  unfold school_boards_paths. fold first. cbn [load_school_boards].
  rewrite He. simpl. unfold bind, lift.
  destruct Hfail as [-> | (doc & -> & ->)]; reflexivity.
Qed.

Lemma school_boards_failure_stops_witness :
  path_exists Cases.world (Demo.root // "data" // "20251030_school_boards.json") = true
  /\ load_standard_data Cases.world "school_boards" Cases.registry
     = (Raise JSONDecodeError, Cases.registry).
Proof.
  split; [reflexivity |].
  exact (school_boards_failure_stops Cases.world Cases.registry
           (standard_of_entry [ (KStr "id", VStr "school_boards");
                                (KStr "path", VStr "data/school_boards.yaml") ])
           "data/school_boards.yaml" JSONDecodeError
           eq_refl eq_refl eq_refl eq_refl (or_introl eq_refl)).
Defined.

Lemma joinpath_empty p : p // "" = p.
Proof.
  destruct p as [a ps]. unfold joinpath, parse. simpl. now rewrite app_nil_r.
Qed.

(** X11.  A manifest entry without a usable path points at the registry
    directory itself.  For a known, uncached id other than
    ["school_boards"] whose path is the empty string (the default of a
    missing [path] field), the first candidate is the registry directory;
    when that directory exists, [load_standard_data] raises
    [IsADirectoryError] instead of reporting absence, and so do
    [search_records] and [get_statistics]. *)
Theorem empty_path_opens_directory
  (w : World) (self : StandardsRegistry) (sid q : string) (standard : Standard) :
  String.eqb sid "school_boards" = false ->
  dict_get (KStr sid) (data_cache self) = None ->
  get_standard self sid = Some standard ->
  path standard = VStr "" ->
  node_at w (registry_path self) = Some Directory ->
  load_standard_data w sid self = (Raise IsADirectoryError, self)
  /\ search_records w sid q self = (Raise IsADirectoryError, self)
  /\ get_statistics w sid self = (Raise IsADirectoryError, self).
Proof.
  intros Hid Hc Hs Hp Hdir.
  assert (Hload : load_standard_data w sid self = (Raise IsADirectoryError, self)).
  { rewrite (load_generic w self sid standard "" Hid Hc Hs Hp).
    unfold possible_paths. cbn [find]. rewrite joinpath_empty.
    unfold path_exists at 1. rewrite Hdir.
    apply load_found_raises. unfold read_document, open_read. now rewrite Hdir. }
  split; [exact Hload |].
  split; [now apply search_of_raise | now apply statistics_of_raise].
Qed.

Lemma empty_path_opens_directory_witness :
  path (standard_of_entry [ (KStr "id", VStr "nopath"); (KStr "title", VStr "No path") ])
  = VStr ""
  /\ load_standard_data Cases.world "nopath" Cases.registry
     = (Raise IsADirectoryError, Cases.registry).
Proof.
  split; [reflexivity |].
  exact (proj1 (empty_path_opens_directory Cases.world Cases.registry "nopath" "abc"
           (standard_of_entry [ (KStr "id", VStr "nopath"); (KStr "title", VStr "No path") ])
           eq_refl eq_refl eq_refl eq_refl eq_refl)).
Defined.

(** X12.  An entry whose path is not a string cannot be loaded at all.
    For a known, uncached id, the special-cased one included, whose path
    field holds a number, null, a list or a mapping, [load_standard_data]
    raises [TypeError] before any file is looked at, in every world, and
    [search_records] and [get_statistics] raise with it. *)
Theorem path_must_be_string
  (w : World) (self : StandardsRegistry) (sid q : string) (standard : Standard) :
  dict_get (KStr sid) (data_cache self) = None ->
  get_standard self sid = Some standard ->
  (forall p, path standard <> VStr p) ->
  load_standard_data w sid self = (Raise TypeError, self)
  /\ search_records w sid q self = (Raise TypeError, self)
  /\ get_statistics w sid self = (Raise TypeError, self).
Proof.
  intros Hc Hs Hp.
  assert (Hload : load_standard_data w sid self = (Raise TypeError, self)).
  { unfold load_standard_data. rewrite Hc, Hs.
    destruct (path standard) as [| b | z | s | l | d] eqn:E; try reflexivity.
    now contradiction (Hp s). }
  split; [exact Hload |].
  split; [now apply search_of_raise | now apply statistics_of_raise].
Qed.

Lemma path_must_be_string_witness :
  load_standard_data Cases.world "numbered" Cases.registry
  = (Raise TypeError, Cases.registry).
Proof.
  refine (proj1 (path_must_be_string Cases.world Cases.registry "numbered" "abc"
           (standard_of_entry [ (KStr "id", VStr "numbered"); (KStr "path", VInt 5) ])
           eq_refl eq_refl _)).
  intros p. discriminate.
Defined.

(* ===================================================================== *)
(** * Which parser reads a file *)
(* ===================================================================== *)

Lemma length_app (a b : string) :
  String.length (a ++ b) = String.length a + String.length b.
Proof. induction a as [| c a IH]; simpl; [reflexivity | now rewrite IH]. Qed.

Lemma rfind_dot_app s t :
  PyStr.rfind_dot (s ++ t)
  = match PyStr.rfind_dot t with
    | Some i => Some (String.length s + i)
    | None => PyStr.rfind_dot s
    end.
Proof.
  induction s as [| c s IH]; simpl.
  - now destruct (PyStr.rfind_dot t).
  - rewrite IH. now destruct (PyStr.rfind_dot t).
Qed.

Lemma drop_app s t : PyStr.drop (String.length s) (s ++ t) = t.
Proof. induction s as [| c s IH]; simpl; [now destruct t | exact IH]. Qed.

Lemma drop_split i : forall n,
  0 < i -> i < String.length n ->
  exists stem, stem <> "" /\ n = stem ++ PyStr.drop i n.
Proof.
  induction i as [| i IH]; intros n Hpos Hlen; [lia |].
  destruct n as [| c n]; [simpl in Hlen; lia |].
  destruct i as [| i'].
  - exists (String c ""). split; [discriminate | reflexivity].
  - destruct (IH n) as (stem & _ & Hn); [lia | simpl in Hlen; lia |].
    exists (String c stem). split; [discriminate |].
    simpl. simpl in Hn. now rewrite <- Hn.
Qed.

(** The suffix is [.yaml] exactly for the names [stem.yaml] with a
    non-empty stem. *)
Lemma suffix_yaml_iff c : suffix c = ".yaml" <-> yaml_name (name c).
Proof.
  unfold suffix, yaml_name. split.
  - destruct (PyStr.rfind_dot (name c)) as [i |]; [| discriminate].
    destruct (0 <? i) eqn:Hpos; simpl; [| discriminate].
    destruct (i <? String.length (name c) - 1) eqn:Hlen; [| discriminate].
    intros Hdrop.
    apply Nat.ltb_lt in Hpos. apply Nat.ltb_lt in Hlen.
    destruct (drop_split i (name c)) as (stem & Hne & Hn); [lia | lia |].
    exists stem. split; [exact Hne |]. now rewrite <- Hdrop.
  - intros (stem & Hne & ->).
    assert (Hdot : PyStr.rfind_dot ".yaml" = Some 0) by reflexivity.
    rewrite rfind_dot_app, Hdot, Nat.add_0_r.
    assert (Hpos : 0 < String.length stem) by (destruct stem; [contradiction | simpl; lia]).
    rewrite length_app. change (String.length ".yaml") with 5.
    replace (0 <? String.length stem) with true by (symmetry; now apply Nat.ltb_lt).
    replace (String.length stem <? String.length stem + 5 - 1) with true
      by (symmetry; apply Nat.ltb_lt; lia).
    simpl. apply drop_app.
Qed.

(** X13.  Which parser a data file goes through is decided by its name
    alone: the YAML parser reads a file exactly when its name is
    [stem.yaml] with a non-empty stem, and every other file, a [.yml] or an
    upper-case [.YAML] file and the hidden file [.yaml] among them, is
    handed to the JSON parser. *)
Theorem parser_follows_name (w : World) (c : Path) (text : string) :
  open_read w c = Ok text ->
  (yaml_name (name c) -> read_document w c = yaml_safe_load w text)
  /\ (~ yaml_name (name c) -> read_document w c = json_load w text).
Proof.
  intros Hopen. unfold read_document. rewrite Hopen. cbn [rbind].
  split; intros H.
  - apply suffix_yaml_iff in H. now rewrite H.
  - destruct (String.eqb (suffix c) ".yaml") eqn:E; [| reflexivity].
    apply String.eqb_eq in E. apply suffix_yaml_iff in E. contradiction.
Qed.

Lemma parser_follows_name_witness :
  read_document Demo.world (Demo.root // "data" // "codes.yaml")
  = yaml_safe_load Demo.world "codes".
Proof.
  refine (proj1 (parser_follows_name Demo.world (Demo.root // "data" // "codes.yaml")
                   "codes" eq_refl) _).
  exists "codes". split; [discriminate | reflexivity].
Defined.

(* ===================================================================== *)
(** * The constructor *)
(* ===================================================================== *)

(** X14.  Without a manifest the registry starts empty and stays usable:
    when [registry.yaml] is not on disk the constructor succeeds without
    reading anything, the listing is empty, and for every id, in every
    world, the lookup and the loader return absence, the search the empty
    list and the statistics the empty mapping, the registry never
    changing. *)
Theorem missing_manifest_gives_empty_registry
  (w w' : World) (root : Path) (sid q : string) :
  node_at w (root // "registry.yaml") = None ->
  let self := mkRegistry root [] [] in
  __init__ w root = Ok self
  /\ list_standards self = []
  /\ get_standard self sid = None
  /\ load_standard_data w' sid self = (Ok VNone, self)
  /\ search_records w' sid q self = (Ok [], self)
  /\ get_statistics w' sid self = (Ok [], self).
Proof.
  intros Hnone self.
  assert (Hinit : __init__ w root = Ok self).
  { unfold __init__, _load_registry, path_exists. simpl. now rewrite Hnone. }
  assert (Hok : cache_ok self) by (intros s d; discriminate).
  split; [exact Hinit |].
  split; [reflexivity |].
  split; [reflexivity |].
  split; [now apply load_unknown |].
  split; [now apply search_unknown | now apply statistics_unknown].
Qed.

Lemma missing_manifest_gives_empty_registry_witness :
  __init__ Demo.wiped Demo.root = Ok (mkRegistry Demo.root [] [])
  /\ search_records Demo.world "codes" "abc" (mkRegistry Demo.root [] [])
     = (Ok [], mkRegistry Demo.root [] []).
Proof.
  destruct (missing_manifest_gives_empty_registry Demo.wiped Demo.world Demo.root
              "codes" "abc" eq_refl) as (Hi & _ & _ & _ & Hs & _).
  split; [exact Hi | exact Hs].
Defined.

(** X15.  A manifest that is there but unusable makes the constructor
    raise; no registry comes into being.  With [registry.yaml] on disk: a
    directory of that name raises [IsADirectoryError]; a parser failure is
    passed on; a document that is not a mapping (an empty file parses to
    null) raises [AttributeError]; and a ["registry"] key holding null, a
    boolean or a number raises [TypeError]. *)
Theorem unusable_manifest_raises (w : World) (root : Path) :
  (node_at w (root // "registry.yaml") = Some Directory ->
   __init__ w root = Raise IsADirectoryError)
  /\ (forall text e,
        node_at w (root // "registry.yaml") = Some (File text) ->
        yaml_safe_load w text = Raise e ->
        __init__ w root = Raise e)
  /\ (forall text doc,
        node_at w (root // "registry.yaml") = Some (File text) ->
        yaml_safe_load w text = Ok doc ->
        is_mapping doc = false ->
        __init__ w root = Raise AttributeError)
  /\ (forall text m entries,
        node_at w (root // "registry.yaml") = Some (File text) ->
        yaml_safe_load w text = Ok (VDict m) ->
        dict_get (KStr "registry") m = Some entries ->
        Py.iter entries = Raise TypeError ->
        __init__ w root = Raise TypeError).
Proof.
  unfold __init__, _load_registry, path_exists, open_read. simpl.
  split; [| split; [| split]].
  - intros ->. reflexivity.
  - intros text e -> Hy. simpl. now rewrite Hy.
  - intros text doc -> Hy Hm. simpl. rewrite Hy. simpl.
    now destruct doc.
  - intros text m entries -> Hy Hr Hi. simpl. rewrite Hy. simpl. rewrite Hr. simpl.
    now rewrite Hi.
Qed.

Lemma unusable_manifest_raises_witness :
  __init__ Cases.blank_manifest_world Demo.root = Raise AttributeError.
Proof.
  exact (proj1 (proj2 (proj2 (unusable_manifest_raises Cases.blank_manifest_world Demo.root)))
           "" VNone eq_refl eq_refl eq_refl).
Defined.

Lemma store_items_app front items : forall stds,
  Forall (fun e => hashable (id (standard_of_entry e)) = true) front ->
  store_items stds (map VDict front ++ items)
  = store_items (fold_left store_entry front stds) items.
Proof.
  induction front as [| e front IH]; intros stds H; [reflexivity |].
  inversion H as [| ? ? He Hrest]; subst.
  cbn [map app store_items]. unfold store_item.
  rewrite standard_of_item_entry. cbn [rbind].
  rewrite (to_key_hashable _ He). cbn [rbind fold_left]. now apply IH.
Qed.

Lemma standard_of_item_other item :
  is_mapping item = false -> standard_of_item item = Raise AttributeError.
Proof. now destruct item. Qed.

(** X16.  One bad entry spoils the whole manifest.  When the entries
    before it are mappings with hashable ids, an entry that is not a mapping
    makes the constructor raise [AttributeError], and an entry whose id is a
    list or a mapping makes it raise [TypeError]; the entries before and
    after it are lost with it, as no registry is returned. *)
Theorem bad_entry_fails_constructor
  (w : World) (root : Path) (text : string) (m : dict value)
  (front : list (dict value)) (bad : value) (rest : list value) :
  node_at w (root // "registry.yaml") = Some (File text) ->
  yaml_safe_load w text = Ok (VDict m) ->
  dict_get (KStr "registry") m = Some (VList (map VDict front ++ bad :: rest)) ->
  Forall (fun e => hashable (id (standard_of_entry e)) = true) front ->
  (is_mapping bad = false -> __init__ w root = Raise AttributeError)
  /\ (forall e, bad = VDict e -> hashable (id (standard_of_entry e)) = false ->
      __init__ w root = Raise TypeError).
Proof.
  intros Hnode Hyaml Hreg Hfront.
  assert (Hinit : __init__ w root
                  = (stds <- store_items (fold_left store_entry front []) (bad :: rest) ;;
                     Ok (mkRegistry root stds []))%result).
  { unfold __init__, _load_registry, path_exists, open_read. simpl.
    rewrite Hnode. simpl. rewrite Hyaml. simpl. rewrite Hreg. simpl.
    now rewrite (store_items_app front (bad :: rest) [] Hfront). }
  rewrite Hinit. cbn [store_items]. unfold store_item. split.
  - intros Hbad. now rewrite (standard_of_item_other bad Hbad).
  - intros e -> Hid. rewrite standard_of_item_entry. cbn [rbind].
    destruct (id (standard_of_entry e)); try discriminate Hid; reflexivity.
Qed.

Lemma bad_entry_fails_constructor_witness :
  __init__ Cases.list_id_world Demo.root = Raise TypeError.
Proof.
  assert (Hfront : Forall (fun e => hashable (id (standard_of_entry e)) = true)
                          [ [ (KStr "id", VStr "codes") ] ])
    by (repeat constructor).
  exact (proj2 (bad_entry_fails_constructor Cases.list_id_world Demo.root "list-id"
                  [ (KStr "registry",
                     VList [ VDict [ (KStr "id", VStr "codes") ]; VDict Cases.list_id_entry ]) ]
                  [ [ (KStr "id", VStr "codes") ] ] (VDict Cases.list_id_entry) []
                  eq_refl eq_refl eq_refl Hfront)
           Cases.list_id_entry eq_refl eq_refl).
Defined.

(* ===================================================================== *)
(** * Lookup and listing agree *)
(* ===================================================================== *)

Lemma dict_get_eqb {V : Type} a b (d : dict V) :
  key_eqb a b = true -> dict_get a d = dict_get b d.
Proof.
  intros H. induction d as [| [k v] d IH]; simpl; [reflexivity |].
  assert (E : key_eqb a k = key_eqb b k).
  { rewrite (key_eqb_sym a k), (key_eqb_sym b k). now apply key_eqb_compat. }
  rewrite E, IH. reflexivity.
Qed.

Lemma dict_set_entries {V : Type} (P : key * V -> Prop) k v (d : dict V) :
  Forall P d ->
  (forall k0, key_eqb k k0 = true -> P (k0, v)) ->
  Forall P (dict_set k v d).
Proof.
  intros Hd Hnew. induction Hd as [| [k0 v0] d Hx Hd IH]; simpl.
  - constructor; [apply Hnew, key_eqb_refl | constructor].
  - destruct (key_eqb k k0) eqn:E.
    + constructor; [now apply Hnew | exact Hd].
    + constructor; [exact Hx | exact IH].
Qed.

Lemma store_item_ok stds item stds' :
  standards_ok stds -> store_item stds item = Ok stds' -> standards_ok stds'.
Proof.
  intros [Hwf Hall]. unfold store_item.
  destruct (standard_of_item item) as [standard | e]; [| discriminate]. cbn [rbind].
  destruct (Py.to_key (id standard)) as [k | e] eqn:Hk; [| discriminate]. cbn [rbind].
  intros [= <-]. split; [now apply dict_set_wf |].
  apply dict_set_entries; [exact Hall |].
  intros k0 Hk0. exists k. now split.
Qed.

Lemma store_items_ok items : forall stds stds',
  standards_ok stds -> store_items stds items = Ok stds' -> standards_ok stds'.
Proof.
  induction items as [| item items IH]; intros stds stds' Hok; simpl.
  - now intros [= <-].
  - destruct (store_item stds item) as [mid | e] eqn:Hm; [| discriminate]. cbn [rbind].
    apply IH. now apply (store_item_ok stds item).
Qed.

Lemma init_standards_ok w root self :
  __init__ w root = Ok self -> standards_ok (standards self).
Proof.
  assert (Hnil : standards_ok ([] : dict Standard)) by (split; [exact I | constructor]).
  unfold __init__, _load_registry. simpl.
  destruct (path_exists w (root // "registry.yaml")); simpl.
  - destruct (open_read w (root // "registry.yaml")) as [text |]; simpl; [| discriminate].
    destruct (yaml_safe_load w text) as [doc |]; simpl; [| discriminate].
    destruct (Py.get doc "registry" (VList [])) as [entries |]; simpl; [| discriminate].
    destruct (Py.iter entries) as [items |]; simpl; [| discriminate].
    destruct (store_items [] items) as [stds |] eqn:Hs; simpl; [| discriminate].
    intros [= <-]. simpl. now apply (store_items_ok items []).
  - now intros [= <-].
Qed.

Lemma load_keeps_standards w sid self :
  standards (snd (load_standard_data w sid self)) = standards self.
Proof.
  destruct (load_state_cases w sid self) as [-> | (_ & d & ->)]; reflexivity.
Qed.

Lemma reachable_standards_ok self : reachable self -> standards_ok (standards self).
Proof.
  induction 1 as [w root self Hinit | w sid self _ IH | w sid q self _ IH
                 | w sid self _ IH | w sid q self _ IH].
  - now apply (init_standards_ok w root).
  - now rewrite load_keeps_standards.
  - now rewrite search_records_state, load_keeps_standards.
  - now rewrite get_statistics_state, load_keeps_standards.
  - destruct (search_standard_records_state w sid q self) as [-> | ->];
      [assumption | now rewrite load_keeps_standards].
Qed.

Lemma to_key_str v sid : Py.to_key v = Ok (KStr sid) -> v = VStr sid.
Proof. destruct v; simpl; try discriminate; now intros [= ->]. Qed.

Lemma key_eqb_str k sid : key_eqb k (KStr sid) = true -> k = KStr sid.
Proof.
  intros H. apply key_eqb_norm in H. simpl in H.
  destruct k as [| [] | z | s]; simpl in H; try discriminate. exact H.
Qed.

Lemma dict_get_in {V : Type} k (d : dict V) v :
  dict_get k d = Some v -> exists k0, In (k0, v) d /\ key_eqb k k0 = true.
Proof.
  induction d as [| [k0 v0] d IH]; simpl; [discriminate |].
  destruct (key_eqb k k0) eqn:E.
  - intros [= <-]. exists k0. split; [now left | exact E].
  - intros H. destruct (IH H) as (k1 & Hin & Hk). exists k1. split; [now right | exact Hk].
Qed.

(** X17.  Lookup and listing agree on every registry a program can hold.
    The descriptor [get_standard] returns for an id carries that very id;
    a listed descriptor with a string id is the one [get_standard] returns
    for its id; and no two listed descriptors are stored under equal ids. *)
Theorem lookup_matches_listing (self : StandardsRegistry) (sid : string) (s : Standard) :
  reachable self ->
  (get_standard self sid = Some s -> id s = VStr sid /\ In s (list_standards self))
  /\ (In s (list_standards self) -> id s = VStr sid -> get_standard self sid = Some s)
  /\ dict_wf (standards self).
Proof.
  intros Hreach.
  destruct (reachable_standards_ok self Hreach) as [Hwf Hall].
  rewrite Forall_forall in Hall.
  split; [| split; [| exact Hwf]].
  - unfold get_standard, list_standards. intros Hget.
    destruct (dict_get_in _ _ _ Hget) as (k0 & Hin & Hk).
    destruct (Hall _ Hin) as (k & Hto & Hkk). simpl in Hto, Hkk.
    split.
    + assert (Hks : key_eqb k (KStr sid) = true).
      { apply (key_eqb_trans k k0); [exact Hkk | now rewrite key_eqb_sym]. }
      apply key_eqb_str in Hks. subst k. now apply to_key_str.
    + apply in_map_iff. now exists (k0, s).
  - unfold get_standard, list_standards. intros Hin Hid.
    apply in_map_iff in Hin as ([k0 s0] & Hs & Hin). simpl in Hs. subst s0.
    destruct (Hall _ Hin) as (k & Hto & Hkk). simpl in Hto, Hkk.
    rewrite Hid in Hto. simpl in Hto. injection Hto as <-.
    rewrite (dict_get_eqb (KStr sid) k0 (standards self) Hkk).
    now apply dict_wf_lookup.
Qed.

Lemma lookup_matches_listing_witness :
  id (Demo.standard "words" "Words" "data/words.yaml") = VStr "words"
  /\ In (Demo.standard "words" "Words" "data/words.yaml") (list_standards Demo.loaded).
Proof.
  exact (proj1 (lookup_matches_listing Demo.loaded "words"
                  (Demo.standard "words" "Words" "data/words.yaml")
                  demo_loaded_reachable) eq_refl).
Defined.

(* ===================================================================== *)
(** * Columnar records *)
(* ===================================================================== *)

Lemma dict_set_length {V : Type} k (v : V) d :
  List.length (dict_set k v d) <= S (List.length d).
Proof.
  induction d as [| [k0 v0] d IH]; simpl; [lia |].
  destruct (key_eqb k k0); simpl; lia.
Qed.

Lemma dict_set_keys_incl {V : Type} k (v : V) d :
  incl (map fst (dict_set k v d)) (map fst d ++ [k]).
Proof.
  rewrite dict_set_keys. destruct (dict_mem k d).
  - apply incl_appl, incl_refl.
  - apply incl_refl.
Qed.

Lemma fold_set_bounds (pairs : list (key * value)) : forall acc,
  dict_wf acc ->
  let out := fold_left (fun a kv => dict_set (fst kv) (snd kv) a) pairs acc in
  dict_wf out
  /\ List.length out <= List.length acc + List.length pairs
  /\ incl (map fst out) (map fst acc ++ map fst pairs).
Proof.
  induction pairs as [| [k v] pairs IH]; intros acc Hwf; simpl.
  - split; [exact Hwf |]. split; [lia |]. rewrite app_nil_r. apply incl_refl.
  - destruct (IH (dict_set k v acc) (dict_set_wf k v acc Hwf)) as (Hw & Hl & Hi).
    split; [exact Hw |]. split.
    + pose proof (dict_set_length k v acc). lia.
    + intros x Hx. apply Hi in Hx. apply in_app_or in Hx as [Hx | Hx].
      * apply dict_set_keys_incl in Hx. apply in_app_or in Hx as [Hx | [<- | []]].
        -- apply in_or_app. now left.
        -- apply in_or_app. right. now left.
      * apply in_or_app. right. now right.
Qed.

Lemma combine_keys_incl (ks : list key) (items : list value) :
  incl (map fst (combine ks items)) ks.
Proof.
  revert items. induction ks as [| k ks IH]; intros [| x items] y Hy; simpl in *;
    try contradiction.
  destruct Hy as [<- | Hy]; [now left | right; now apply (IH items)].
Qed.

Lemma zip_fields_bounds ks items :
  dict_wf (zip_fields ks items)
  /\ List.length (zip_fields ks items) <= Nat.min (List.length ks) (List.length items)
  /\ incl (map fst (zip_fields ks items)) ks.
Proof.
  destruct (fold_set_bounds (combine ks items) [] I) as (Hw & Hl & Hi).
  split; [exact Hw |]. split.
  - unfold zip_fields. rewrite length_combine in Hl. simpl in Hl. exact Hl.
  - intros k Hk. apply Hi in Hk. simpl in Hk. now apply (combine_keys_incl ks items).
Qed.

(** X18.  In columnar form the normalizer produces one record per row, in
    row order, and each record is a well-formed mapping: no key occurs
    twice even when a field id is repeated, every key is one of the field
    ids, and there are at most as many entries as the shorter of the field
    list and the row, surplus values of a long row being dropped. *)
Theorem columnar_records_bounded
  (d : dict value) (descs : list (dict value)) (ks : list key)
  (rows : list (list value)) :
  not_nested d = true ->
  dict_get (KStr "data") d = None ->
  dict_get (KStr "fields") d = Some (VList (map VDict descs)) ->
  map (dict_get (KStr "id")) descs = map (fun k => Some (Py.of_key k)) ks ->
  dict_get (KStr "records") d = Some (VList (map VList rows)) ->
  ks <> [] ->
  exists recs,
    _get_data_records (VDict d) = Ok (VList (map VDict recs))
    /\ List.length recs = List.length rows
    /\ Forall2 (fun items r =>
                  dict_wf r
                  /\ List.length r <= Nat.min (List.length ks) (List.length items)
                  /\ incl (map fst r) ks) rows recs.
Proof.
  intros Hn Hd Hf Hids Hr Hks.
  exists (map (zip_fields ks) rows).
  split; [| split].
  - rewrite (normalize_columnar d descs ks rows Hn Hd Hf Hids Hr).
    destruct ks; [contradiction |]. now rewrite map_map.
  - apply length_map.
  - clear. induction rows as [| items rows IH]; simpl; constructor.
    + apply zip_fields_bounds.
    + apply IH.
Qed.

Lemma columnar_records_bounded_witness :
  exists recs,
    _get_data_records (VDict Cases.repeated_field) = Ok (VList (map VDict recs))
    /\ List.length recs = 2
    /\ Forall2 (fun items r =>
                  dict_wf r
                  /\ List.length r <= Nat.min 3 (List.length items)
                  /\ incl (map fst r) [KStr "a"; KStr "b"; KStr "a"])
               [ [VInt 1; VInt 2; VInt 3; VInt 4]; [VInt 5] ] recs.
Proof.
  refine (columnar_records_bounded Cases.repeated_field
            [ [(KStr "id", VStr "a")]; [(KStr "id", VStr "b")]; [(KStr "id", VStr "a")] ]
            [KStr "a"; KStr "b"; KStr "a"]
            [ [VInt 1; VInt 2; VInt 3; VInt 4]; [VInt 5] ]
            eq_refl eq_refl eq_refl eq_refl eq_refl _).
  discriminate.
Defined.

(* ===================================================================== *)
(** * Presentation helpers *)
(* ===================================================================== *)










(* ===================================================================== *)
(** * The search box when nothing is found *)
(* ===================================================================== *)




(* ===================================================================== *)
(** * The details view *)
(* ===================================================================== *)

Lemma load_absence_unchanged w sid self self' :
  cache_ok self ->
  load_standard_data w sid self = (Ok VNone, self') -> self' = self.
Proof.
  intros Hok Hload.
  destruct (load_standard_data_cases w sid self)
    as [(c & Hc & Heq)
       | [(_ & _ & Heq)
         | (_ & _ & [Heq | [(e & Heq) | (d & r & Heq & _ & _ & Hd)]])]];
    rewrite Heq in Hload; try discriminate; inversion Hload; subst;
    try reflexivity.
  discriminate.
Qed.

(** X22.  The details view on an id without data.  An id the registry
    does not list is answered with "Standard not found." and nothing else,
    the registry untouched.  For a listed id whose descriptor formats and
    whose load ends in absence, on a registry a program can hold, the view
    returns the formatted descriptor with an empty statistics block and an
    empty preview, and leaves the registry as it was. *)
Theorem details_without_data
  (w : World) (self self' : StandardsRegistry) (sid : string) :
  sid <> "" ->
  (get_standard self sid = None ->
   get_standard_details w sid self = (Shown ("Standard not found.", "", ""), self))
  /\ (forall standard info,
        reachable self ->
        get_standard self sid = Some standard ->
        format_standard_info standard = Ok info ->
        load_standard_data w sid self = (Ok VNone, self') ->
        get_standard_details w sid self = (Shown (info, "", ""), self)).
Proof.
  intros Hsid.
  assert (Es : String.eqb sid "" = false) by (now apply String.eqb_neq).
  unfold get_standard_details. rewrite Es. split.
  - intros ->. reflexivity.
  - intros standard info Hreach -> -> Hload.
    assert (Hself : self' = self)
      by (apply (load_absence_unchanged w sid); [now apply reachable_cache_ok | exact Hload]).
    subst self'.
    rewrite (statistics_of_absence w sid self self Hload). simpl.
    now rewrite Hload.
Qed.

Lemma details_without_data_witness :
  exists info,
    get_standard_details Demo.world "missing" Demo.registry
    = (Shown (info, "", ""), Demo.registry).
Proof.
  assert (Hsid : "missing" <> "") by discriminate.
  eexists.
  exact (proj2 (details_without_data Demo.world Demo.registry Demo.registry "missing" Hsid)
           (Demo.standard "missing" "Missing" "data/missing.yaml") _
           demo_reachable eq_refl eq_refl eq_refl).
Defined.

Lemma mapM_as_str_raises items x :
  In x items -> as_str x = Raise TypeError -> mapM as_str items = Raise TypeError.
Proof.
  induction items as [| y items IH]; simpl; [contradiction |].
  intros [-> | Hin] Hx.
  - now rewrite Hx.
  - rewrite (IH Hin Hx). now destruct y.
Qed.

Lemma as_str_of_key k :
  (forall s, k <> KStr s) -> as_str (Py.of_key k) = Raise TypeError.
Proof. destruct k as [| b | z | s]; intros H; try reflexivity. now contradiction (H s). Qed.

(** X23.  The details view needs string field names where the statistics
    do not.  When an id loads and the first of its records is a mapping
    with a key among its first ten that is not a string (a numeric column
    id, say), [get_statistics] answers as usual, but
    [get_standard_details] raises [TypeError] while joining the field
    names; the document stays cached. *)
Theorem details_need_string_field_names
  (w : World) (self self' : StandardsRegistry) (sid : string)
  (standard : Standard) (info : string) (data : value)
  (first : dict value) (rest : list value) (k : key) :
  sid <> "" ->
  get_standard self sid = Some standard ->
  format_standard_info standard = Ok info ->
  load_standard_data w sid self = (Ok data, self') ->
  _get_data_records data = Ok (VList (VDict first :: rest)) ->
  In k (firstn 10 (map fst first)) ->
  (forall s, k <> KStr s) ->
  get_statistics w sid self
  = (Ok [ (KStr "total_records", VInt (Z.of_nat (List.length (VDict first :: rest))));
          (KStr "fields", VList (map (fun kv => Py.of_key (fst kv)) first)) ],
     self')
  /\ get_standard_details w sid self = (Failed (Core TypeError), self').
Proof.
  intros Hsid Hget Hinfo Hload Hrec Hin Hk.
  assert (Es : String.eqb sid "" = false) by (now apply String.eqb_neq).
  assert (Hstats : get_statistics w sid self
     = (Ok [ (KStr "total_records", VInt (Z.of_nat (List.length (VDict first :: rest))));
             (KStr "fields", VList (map (fun kv => Py.of_key (fst kv)) first)) ],
        self')).
  { unfold get_statistics, bind, lift, ret. rewrite Hload.
    assert (Hd : Py.truthy data = true)
      by (now apply (records_truthy_data data (VList (VDict first :: rest)))).
    rewrite Hd. simpl. now rewrite Hrec. }
  split; [exact Hstats |].
  unfold get_standard_details. rewrite Es, Hget, Hinfo, Hstats.
  assert (Hjoin : join_names (VList (firstn 10 (map (fun kv => Py.of_key (fst kv)) first)))
                  = Raise TypeError).
  { unfold join_names. cbn [Py.iter rbind].
    rewrite (mapM_as_str_raises _ (Py.of_key k)); [reflexivity | | now apply as_str_of_key].
    rewrite <- (map_map fst Py.of_key), firstn_map. now apply in_map. }
  assert (Hkeys : Py.truthy (VList (map (fun kv => Py.of_key (fst kv)) first)) = true)
    by (destruct first; [destruct Hin | reflexivity]).
  set (keys := map (fun kv => Py.of_key (fst kv)) first) in *.
  clearbody keys.
  unfold stats_text_of, field_or.
  change (dict_get (KStr "total_records") _)
    with (Some (VInt (Z.of_nat (List.length (VDict first :: rest))))).
  change (dict_get (KStr "fields") _) with (Some (VList keys)).
  cbn [format_comma]. rewrite Hkeys.
  cbn [Py.len slice_10 rbind]. now rewrite Hjoin.
Qed.

Lemma details_need_string_field_names_witness :
  exists info,
    format_standard_info
      (standard_of_entry [ (KStr "id", VStr "numeric"); (KStr "title", VStr "Numeric columns");
                           (KStr "path", VStr "data/numeric.json") ]) = Ok info
    /\ get_standard_details Cases.world "numeric" Cases.registry
       = (Failed (Core TypeError), with_cached "numeric" Cases.numeric_doc Cases.registry).
Proof.
  assert (Hsid : "numeric" <> "") by discriminate.
  assert (Hk : forall s, KInt 1 <> KStr s) by discriminate.
  eexists. split; [reflexivity |].
  exact (proj2 (details_need_string_field_names Cases.world Cases.registry
           (with_cached "numeric" Cases.numeric_doc Cases.registry) "numeric"
           (standard_of_entry [ (KStr "id", VStr "numeric");
                                (KStr "title", VStr "Numeric columns");
                                (KStr "path", VStr "data/numeric.json") ])
           _ Cases.numeric_doc
           [ (KInt 1, VInt 10); (KInt 2, VInt 20) ] [] (KInt 1)
           Hsid eq_refl eq_refl eq_refl eq_refl (or_introl eq_refl) Hk)).
Defined.

(* ===================================================================== *)
(** * Candidates that coincide *)
(* ===================================================================== *)

Lemma replace_from_without old new s :
  PyStr.contains old s = false -> PyStr.replace_from old new 0 s = s.
Proof.
  induction s as [| c s IH]; [reflexivity |].
  cbn [PyStr.contains]. intros H. apply orb_false_iff in H as [Hhere Hlater].
  cbn [PyStr.replace_from]. now rewrite Hhere, (IH Hlater).
Qed.

(** X24.  A manifest path that does not end in [.yaml] has only two
    candidates.  For a relative manifest path whose file name does not
    contain [.yaml] (a [.json] or [.yml] entry, say), the third candidate is
    the exact path once more: after the exact path only the date-stamped
    name is tried. *)
Theorem json_entry_has_two_candidates (root : Path) (p : string) :
  leading_slashes p = 0 ->
  PyStr.contains ".yaml" (filename_of p) = false ->
  possible_paths root p
  = [ root // p;
      root // dir_path_of p // ("20251030_" ++ filename_of p);
      root // p ].
Proof.
  intros Hrel Hno. unfold possible_paths, PyStr.replace.
  rewrite (replace_from_without ".yaml" ".json" _ Hno).
  now rewrite <- (joinpath_dir_path root p Hrel).
Qed.

Lemma json_entry_has_two_candidates_witness :
  possible_paths Demo.root "data/mixed.json"
  = [ Demo.root // "data/mixed.json";
      Demo.root // "data" // "20251030_mixed.json";
      Demo.root // "data/mixed.json" ].
Proof. exact (json_entry_has_two_candidates Demo.root "data/mixed.json" eq_refl eq_refl). Defined.

(* ===================================================================== *)
(** * Table headers *)
(* ===================================================================== *)

Lemma starts_with_length p s :
  PyStr.starts_with p s = true -> String.length p <= String.length s.
Proof.
  revert s. induction p as [| a p IH]; intros s H; simpl in *; [lia |].
  destruct s as [| b s]; [discriminate |].
  apply andb_true_iff in H as [_ H]. specialize (IH s H). simpl. lia.
Qed.

(** Replacing by a string of the same length keeps the length. *)
Lemma replace_from_length old new :
  String.length old = String.length new -> old <> "" ->
  forall s k,
    String.length (PyStr.replace_from old new k s) + Nat.min k (String.length s)
    = String.length s.
Proof.
  intros Hlen Hne.
  assert (Hpos : 1 <= String.length old) by (destruct old; [contradiction | simpl; lia]).
  induction s as [| c s IH]; intros k.
  - simpl. lia.
  - destruct k as [| k].
    + cbn [PyStr.replace_from].
      destruct (PyStr.starts_with old (String c s)) eqn:E.
      * apply starts_with_length in E. simpl in E.
        rewrite length_app. specialize (IH (String.length old - 1)). simpl. lia.
      * specialize (IH 0). simpl. simpl in IH. lia.
    + cbn [PyStr.replace_from]. specialize (IH k). simpl. lia.
Qed.

Lemma all_chars_app p a b : all_chars p (a ++ b) = all_chars p a && all_chars p b.
Proof.
  induction a as [| c a IH]; simpl; [reflexivity |]. now rewrite IH, andb_assoc.
Qed.

(** What a replacement returns is made of characters of the input and of
    the replacement text. *)
Lemma replace_from_all_chars p old new :
  all_chars p new = true ->
  forall s k, all_chars p s = true -> all_chars p (PyStr.replace_from old new k s) = true.
Proof.
  intros Hnew. induction s as [| c s IH]; intros k Hs; [reflexivity |].
  simpl in Hs. apply andb_true_iff in Hs as [Hc Hs].
  destruct k as [| k]; cbn [PyStr.replace_from].
  - destruct (PyStr.starts_with old (String c s)).
    + rewrite all_chars_app, Hnew. simpl. now apply IH.
    + simpl. rewrite Hc. simpl. now apply IH.
  - now apply IH.
Qed.

(** After underscores have been replaced by spaces none is left. *)
Lemma replace_underscores s :
  PyStr.is_ascii s = true ->
  all_chars plain_char (PyStr.replace "_" " " s) = true
  /\ String.length (PyStr.replace "_" " " s) = String.length s.
Proof.
  unfold PyStr.replace. induction s as [| c s IH]; intros H; [now split |].
  simpl in H. apply andb_true_iff in H as [Hc Hs].
  destruct (IH Hs) as [IHp IHl].
  cbn [PyStr.replace_from PyStr.starts_with String.length Nat.sub].
  rewrite andb_true_r. destruct (Ascii.eqb "_" c) eqn:E.
  - change (" " ++ PyStr.replace_from "_" " " 0 s)
      with (String " " (PyStr.replace_from "_" " " 0 s)).
    simpl. rewrite IHp, IHl. now split.
  - simpl. rewrite IHp, IHl. unfold plain_char. rewrite Hc, Ascii.eqb_sym, E. now split.
Qed.

Lemma title_char_ascii c :
  PyStr.is_ascii_char c = true ->
  (exists c', title_char c = Some (String c' EmptyString)
              /\ PyStr.is_ascii_char c' = true
              /\ (plain_char c = true -> plain_char c' = true))
  /\ (plain_char c = true -> plain_char (PyStr.lower_char c) = true).
Proof.
  intros H.
  assert (Hok : title_char_ok c = true)
    by (revert c H; intros c _; revert c; apply ascii_forall; vm_compute; reflexivity).
  unfold title_char_ok in Hok. rewrite H in Hok. simpl in Hok.
  apply andb_true_iff in Hok as [Hok Hlow]. apply andb_true_iff in Hok as [Htitle _].
  split.
  - destruct (title_char c) as [[| c' [| ? ?]] |]; try discriminate.
    apply andb_true_iff in Htitle as [Ha Hp].
    exists c'. split; [reflexivity | split; [exact Ha |]].
    intros Hplain. unfold plain_char in Hplain.
    apply andb_true_iff in Hplain as [_ Hu]. apply negb_true_iff in Hu.
    rewrite Hu in Hp. exact Hp.
  - intros Hplain. unfold plain_char in Hplain.
    apply andb_true_iff in Hplain as [_ Hu]. apply negb_true_iff in Hu.
    rewrite Hu in Hlow. exact Hlow.
Qed.

Lemma plain_char_ascii c : plain_char c = true -> PyStr.is_ascii_char c = true.
Proof. unfold plain_char. intros H. now apply andb_true_iff in H. Qed.

(** Title-casing plain ASCII text maps it character by character. *)
Lemma title_from_plain s : forall previous,
  all_chars plain_char s = true ->
  exists out,
    title_from previous s = Some out
    /\ String.length out = String.length s
    /\ all_chars plain_char out = true.
Proof.
  induction s as [| c s IH]; intros previous H.
  - exists "". now repeat split.
  - simpl in H. apply andb_true_iff in H as [Hc Hs].
    destruct (title_char_ascii c (plain_char_ascii c Hc)) as [(c' & Ht & _ & Hp) Hl].
    destruct (IH (is_cased c) Hs) as (rest & Hrest & Hlen & Hall).
    cbn [title_from]. rewrite Hrest, Ht.
    destruct previous.
    + exists (String (PyStr.lower_char c) rest). simpl.
      rewrite Hlen, Hall, (Hl Hc). now repeat split.
    + exists (String c' rest). simpl. rewrite Hlen, Hall, (Hp Hc). now repeat split.
Qed.

Lemma all_plain_no_underscore s :
  all_chars plain_char s = true ->
  PyStr.contains "_" s = false /\ PyStr.is_ascii s = true.
Proof.
  induction s as [| c s IH]; intros H; [now split |].
  simpl in H. apply andb_true_iff in H as [Hc Hs].
  destruct (IH Hs) as [Hno Hascii].
  unfold plain_char in Hc. apply andb_true_iff in Hc as [Ha Hu].
  apply negb_true_iff in Hu.
  split.
  - rewrite contains_char_cons, Hno, Ascii.eqb_sym, Hu. reflexivity.
  - simpl. now rewrite Ha, Hascii.
Qed.

(** X25.  On a header of ASCII characters [format_header] changes no
    length and leaves no underscore: the result has as many characters as
    the header, all of them ASCII, and none of them an underscore. *)
Theorem format_header_ascii (header : string) :
  PyStr.is_ascii header = true ->
  exists out,
    format_header header = Some out
    /\ String.length out = String.length header
    /\ PyStr.contains "_" out = false
    /\ PyStr.is_ascii out = true.
Proof.
  intros Hascii.
  destruct (replace_underscores header Hascii) as [Hplain Hlen].
  destruct (title_from_plain _ false Hplain) as (titled & Ht & Hlt & Hpt).
  exists (PyStr.replace "Id" "ID" titled).
  unfold format_header, str_title. rewrite Ht.
  split; [reflexivity |].
  assert (Hl : String.length (PyStr.replace "Id" "ID" titled) = String.length titled).
  { pose proof (replace_from_length "Id" "ID" eq_refl ltac:(discriminate) titled 0) as H.
    unfold PyStr.replace. simpl in H. lia. }
  split; [now rewrite Hl, Hlt |].
  apply all_plain_no_underscore.
  unfold PyStr.replace. now apply replace_from_all_chars.
Qed.

Lemma format_header_ascii_witness :
  exists out,
    format_header "board_id" = Some out
    /\ String.length out = 8
    /\ PyStr.contains "_" out = false
    /\ PyStr.is_ascii out = true.
Proof. exact (format_header_ascii "board_id" eq_refl). Defined.

(* ===================================================================== *)
(** * Queries and the loader *)
(* ===================================================================== *)

(** X26.  The query methods have no effect of their own on the registry.
    Whatever [search_records] and [get_statistics] return or raise, and
    whatever the query, they leave the registry exactly as a plain
    [load_standard_data] for the same id in the same world would; an
    exception raised after the load, while the records are gone through,
    does not undo the caching. *)
Theorem queries_change_what_load_changes
  (w : World) (self : StandardsRegistry) (sid q : string) :
  snd (search_records w sid q self) = snd (load_standard_data w sid self)
  /\ snd (get_statistics w sid self) = snd (load_standard_data w sid self).
Proof.
  split; [apply search_records_state | apply get_statistics_state].
Qed.

(** X27.  Asking twice in the same world gives the same answer.  A second
    [load_standard_data] for an id, made on the registry the first call
    left and with the files unchanged, returns or raises exactly what the
    first did and changes nothing any more: a document comes from the
    cache, while an absence or an exception is computed afresh from the
    same files. *)
Theorem load_again_same (w : World) (self : StandardsRegistry) (sid : string) :
  load_standard_data w sid (snd (load_standard_data w sid self))
  = (fst (load_standard_data w sid self), snd (load_standard_data w sid self)).
Proof.
  destruct (load_standard_data_cases w sid self)
    as [(c & Hc & Heq)
       | [(_ & _ & Heq)
         | (_ & _ & [Heq | [(e & Heq) | (d & r & Heq & _)]])]];
    rewrite Heq; simpl; try (now rewrite Heq).
  apply load_cached. unfold with_cached. simpl. apply dict_get_set_same.
Qed.
